(** * Map Earth: the landmark page (src/app/layout.jsx and its older variant
    src/unnamed/part_002)

    A shallow embedding of the zustand store, the click handler of the
    sphere, and the drawing panel (history, filters, save), followed by the
    properties of the specification that were checked against it. *)

From Stdlib Require Import Reals Lra ZArith QArith Lia List String Ascii Bool.
Import ListNotations.

Set Implicit Arguments.

(* ================================================================== *)
(** * JavaScript values used by the page *)
(* ================================================================== *)

Module JS.

(** ** Numbers

    A JavaScript number is an IEEE double.  The finite ones are idealised as
    reals (rounding, overflow and the sign of zero are left out); NaN and the
    two infinities are kept, with the operations on them as ECMAScript gives
    them, because the handlers reach them (0/0). *)

Inductive number : Type :=
| NaN
| PosInf
| NegInf
| Fin (r : R).

Local Open Scope R_scope.

Definition neg (a : number) : number :=
  match a with
  | NaN => NaN
  | PosInf => NegInf
  | NegInf => PosInf
  | Fin x => Fin (- x)
  end.

Definition add (a b : number) : number :=
  match a, b with
  | NaN, _ | _, NaN => NaN
  | PosInf, NegInf | NegInf, PosInf => NaN
  | PosInf, _ | _, PosInf => PosInf
  | NegInf, _ | _, NegInf => NegInf
  | Fin x, Fin y => Fin (x + y)
  end.

Definition sub (a b : number) : number := add a (neg b).

(** The infinity of the sign of [x], NaN at zero: infinity times [x]. *)
Definition signed_inf (x : R) : number :=
  if Rlt_dec 0 x then PosInf
  else if Rlt_dec x 0 then NegInf
  else NaN.

Definition mul (a b : number) : number :=
  match a, b with
  | NaN, _ | _, NaN => NaN
  | PosInf, PosInf | NegInf, NegInf => PosInf
  | PosInf, NegInf | NegInf, PosInf => NegInf
  | PosInf, Fin x | Fin x, PosInf => signed_inf x
  | NegInf, Fin x | Fin x, NegInf => neg (signed_inf x)
  | Fin x, Fin y => Fin (x * y)
  end.

Definition div (a b : number) : number :=
  match a, b with
  | NaN, _ | _, NaN => NaN
  | (PosInf | NegInf), (PosInf | NegInf) => NaN
  | PosInf, Fin y => if Rlt_dec y 0 then NegInf else PosInf
  | NegInf, Fin y => if Rlt_dec y 0 then PosInf else NegInf
  | Fin _, (PosInf | NegInf) => Fin 0
  | Fin x, Fin y =>
      if Req_dec_T y 0 then signed_inf x   (* x/0; 0/0 is NaN *)
      else Fin (x / y)
  end.

(** [a % b]: the remainder has the sign of the dividend. *)
Definition trunc (q : R) : R :=
  if Rle_dec 0 q then IZR (Int_part q) else - IZR (Int_part (- q)).

Definition rem (a b : number) : number :=
  match a, b with
  | NaN, _ | _, NaN => NaN
  | (PosInf | NegInf), _ => NaN
  | Fin x, (PosInf | NegInf) => Fin x
  | Fin x, Fin y =>
      if Req_dec_T y 0 then NaN
      else Fin (x - y * trunc (x / y))
  end.

(** [a < b]; false as soon as one side is NaN. *)
Definition lt (a b : number) : bool :=
  match a, b with
  | NaN, _ | _, NaN => false
  | PosInf, _ => false
  | _, NegInf => false
  | NegInf, _ => true
  | _, PosInf => true
  | Fin x, Fin y => if Rlt_dec x y then true else false
  end.

Definition gt (a b : number) : bool := lt b a.

(** ** The Math object *)

Definition Math_PI : number := Fin PI.

Definition Math_sqrt (a : number) : number :=
  match a with
  | NaN | NegInf => NaN
  | PosInf => PosInf
  | Fin x => if Rlt_dec x 0 then NaN else Fin (sqrt x)
  end.

Definition Math_acos (a : number) : number :=
  match a with
  | Fin x => if Rlt_dec x (-1) then NaN
             else if Rlt_dec 1 x then NaN
             else Fin (acos x)
  | _ => NaN
  end.

(** [Math.atan2(y, x)], the angle of the point (x, y) in [-PI, PI]. *)
Definition Math_atan2 (a b : number) : number :=
  match a, b with
  | NaN, _ | _, NaN => NaN
  | PosInf, PosInf => Fin (PI / 4)
  | PosInf, NegInf => Fin (3 * PI / 4)
  | NegInf, PosInf => Fin (- (PI / 4))
  | NegInf, NegInf => Fin (- (3 * PI / 4))
  | PosInf, Fin _ => Fin (PI / 2)
  | NegInf, Fin _ => Fin (- (PI / 2))
  | Fin _, PosInf => Fin 0
  | Fin y, NegInf => if Rlt_dec y 0 then Fin (- PI) else Fin PI
  | Fin y, Fin x =>
      if Rlt_dec 0 x then Fin (atan (y / x))
      else if Rlt_dec x 0 then
        (if Rlt_dec y 0 then Fin (atan (y / x) - PI)
         else Fin (atan (y / x) + PI))
      else if Rlt_dec 0 y then Fin (PI / 2)
      else if Rlt_dec y 0 then Fin (- (PI / 2))
      else Fin 0
  end.

(** ** Strings

    A string is a sequence of code units; the page only tests and
    concatenates them.  [trim] removes white space at both ends; the white
    space and line terminators of ECMAScript below U+0100 are TAB, LF, VT,
    FF, CR, SP and NBSP. *)

Definition isWhiteSpace (c : ascii) : bool :=
  let n := nat_of_ascii c in
  (Nat.leb 9 n && Nat.leb n 13) || Nat.eqb n 32 || Nat.eqb n 160.

Fixpoint trimStart (s : string) : string :=
  match s with
  | EmptyString => EmptyString
  | String c s' => if isWhiteSpace c then trimStart s' else s
  end.

(** [trimEnd]: drop the white space that is followed by white space only. *)
Fixpoint trimEnd (s : string) : string :=
  match s with
  | EmptyString => EmptyString
  | String c s' =>
      match trimEnd s' with
      | EmptyString => if isWhiteSpace c then EmptyString
                       else String c EmptyString
      | t => String c t
      end
  end.

Definition trim (s : string) : string := trimEnd (trimStart s).

(** Truthiness of a string: the empty string is the only falsy one. *)
Definition truthy (s : string) : bool :=
  match s with
  | EmptyString => false
  | String _ _ => true
  end.

(** ** Arrays

    [a[i]] is undefined outside the array; [a.slice(0, e)] counts a
    negative [e] from the end and clamps. *)

Definition index {A : Type} (a : list A) (i : Z) : option A :=
  if (i <? 0)%Z then None else nth_error a (Z.to_nat i).

Definition slice0 {A : Type} (a : list A) (e : Z) : list A :=
  let len := Z.of_nat (List.length a) in
  let k := if (e <? 0)%Z then Z.max (len + e) 0 else Z.min e len in
  firstn (Z.to_nat k) a.

End JS.

Declare Scope js_scope.
Delimit Scope js_scope with js.
Infix "+" := JS.add : js_scope.
Infix "-" := JS.sub : js_scope.
Infix "*" := JS.mul : js_scope.
Infix "/" := JS.div : js_scope.
Infix "mod" := JS.rem : js_scope.
Infix "<?" := JS.lt : js_scope.
Infix ">?" := JS.gt : js_scope.

(** Numeric literals of the source. *)
Definition num (z : Z) : JS.number := JS.Fin (IZR z).

(* ================================================================== *)
(** * The zustand store (the same text in both files) *)
(* ================================================================== *)

(** A row of the [landmarks] table, as the persistence service returns it. *)
Record StoredLandmark : Type := {
  lm_id : Z;
  lm_name : string;
  lm_lat : JS.number;
  lm_lng : JS.number;
  lm_drawing_data : string
}.

(** What the [landmarks] field can hold.  The setter [setLandmarks] stores
    its argument as it is, and the realtime handler of layout.jsx passes it
    the arrow function [prev => [...prev, payload.new]]: the field then
    holds that function, not an array. *)
Inductive LandmarksValue : Type :=
| LmArray (rows : list StoredLandmark)
| LmAppender (row : StoredLandmark).

Record Store : Type := {
  isDrawingPanelOpen : bool;
  currentLat : JS.number;
  currentLng : JS.number;
  landmarks : LandmarksValue
}.

Definition initialStore : Store :=
  {| isDrawingPanelOpen := false;
     currentLat := num 0;
     currentLng := num 0;
     landmarks := LmArray [] |}.

(** [setDrawingPanel: (open, lat = 0, lng = 0) => set({...})] *)
Definition setDrawingPanel (open : bool) (lat lng : option JS.number)
    (s : Store) : Store :=
  {| isDrawingPanelOpen := open;
     currentLat := match lat with Some v => v | None => num 0 end;
     currentLng := match lng with Some v => v | None => num 0 end;
     landmarks := landmarks s |}.

(** [setLandmarks: (landmarks) => set({ landmarks })] *)
Definition setLandmarks (v : LandmarksValue) (s : Store) : Store :=
  {| isDrawingPanelOpen := isDrawingPanelOpen s;
     currentLat := currentLat s;
     currentLng := currentLng s;
     landmarks := v |}.

(** [addLandmark: (landmark) => set((state) =>
      ({ landmarks: [...state.landmarks, landmark] }))].
    Spreading a function throws a TypeError: [None]. *)
Definition addLandmark (landmark : StoredLandmark) (s : Store)
    : option Store :=
  match landmarks s with
  | LmArray rows => Some (setLandmarks (LmArray (rows ++ [landmark])) s)
  | LmAppender _ => None
  end.

(** The point of a pointer event on the sphere. *)
Record Point : Type := { px : JS.number; py : JS.number; pz : JS.number }.

(* ================================================================== *)
(** * The older page variant (src/unnamed/part_002) *)
(* ================================================================== *)

Module Part002.

Local Open Scope js_scope.

(** [Earth.handleClick], lines 42-52. *)
Definition handleClick (point : Point) (s : Store) : Store :=
  let x := px point in
  let y := py point in
  let z := pz point in
  let r := JS.Math_sqrt (x * x + y * y + z * z) in
  let lat := num 90 - (JS.Math_acos (y / r) * num 180 / JS.Math_PI) in
  let lng := (JS.Math_atan2 z x * num 180 / JS.Math_PI) mod num 360 in
  let lng := if lng <? num (-180) then lng + num 360 else lng in
  let lng := if lng >? num 180 then lng - num 360 else lng in
  setDrawingPanel true (Some lat) (Some lng) s.

End Part002.

(* ================================================================== *)
(** * The page (src/app/layout.jsx) *)
(* ================================================================== *)

Module Layout.

Local Open Scope js_scope.

(** ** The sphere: [Earth.handleClick], lines 479-489 *)

Definition handleClick (point : Point) (s : Store) : Store :=
  let x := px point in
  let y := py point in
  let z := pz point in
  let r := JS.Math_sqrt (x * x + y * y + z * z) in
  let lat := num 90 - (JS.Math_acos (y / r) * num 180 / JS.Math_PI) in
  let lng := (JS.Math_atan2 z x * num 180 / JS.Math_PI) mod num 360 in
  let lng := if lng <? num (-180) then lng + num 360 else lng in
  let lng := if lng >? num 180 then lng - num 360 else lng in
  setDrawingPanel true (Some lat) (Some lng) s.

Local Close Scope js_scope.
Local Open Scope string_scope.
Local Open Scope Z_scope.

(** ** The content of the fabric canvas *)

(** The filters the panel creates. *)
Inductive Filter : Type :=
| Blur (blur : Q)
| Grayscale
| Brightness (brightness : Q)
| Contrast (contrast : Q).

(** Pixel data of an image element. *)
Definition Bitmap : Type := list Z.

Record Gradient : Type := { g_type : string; g_colors : list string }.

Inductive Fill : Type :=
| Transparent
| GradientFill (g : Gradient)
| ColorFill (c : string).

Record TextStyle : Type := {
  ts_fontFamily : string;
  ts_fontSize : JS.number;
  ts_fontWeight : string;
  ts_fontStyle : string;
  ts_underline : bool
}.

Inductive ObjectBody : Type :=
| Rect (width height : Z)
| Circle (radius : Z)
| Triangle (width height : Z)
| IText (text : string) (style : TextStyle)
| Image (originalElement element : Bitmap) (scaleX scaleY : Q).

Record FabricObject : Type := {
  body : ObjectBody;
  left : Z;
  top : Z;
  fill : Fill;
  stroke : option string;
  strokeWidth : Z;
  filters : option (list Filter)      (* undefined or an array *)
}.

Definition set_filters (fs : option (list Filter)) (o : FabricObject)
    : FabricObject :=
  {| body := body o; left := left o; top := top o; fill := fill o;
     stroke := stroke o; strokeWidth := strokeWidth o; filters := fs |}.

Definition set_body (b : ObjectBody) (o : FabricObject) : FabricObject :=
  {| body := b; left := left o; top := top o; fill := fill o;
     stroke := stroke o; strokeWidth := strokeWidth o;
     filters := filters o |}.

(** [activeObject] is the position, in [objects], of the selected object:
    the handlers mutate that object in place. *)
Record Canvas : Type := {
  objects : list FabricObject;
  activeObject : option nat;
  backgroundColor : string;
  disposed : bool
}.

(** What [canvas.toJSON()] keeps of the canvas. *)
Record Snapshot : Type := {
  snap_objects : list FabricObject;
  snap_background : string
}.

Definition toJSON (c : Canvas) : Snapshot :=
  {| snap_objects := objects c; snap_background := backgroundColor c |}.

(** [new fabric.Canvas(canvasRef.current, { backgroundColor: '#1a1a1a', ... })] *)
Definition newCanvas : Canvas :=
  {| objects := []; activeObject := None;
     backgroundColor := "#1a1a1a"; disposed := false |}.

Definition set_objects (os : list FabricObject) (c : Canvas) : Canvas :=
  {| objects := os; activeObject := activeObject c;
     backgroundColor := backgroundColor c; disposed := disposed c |}.

Definition set_active (i : option nat) (c : Canvas) : Canvas :=
  {| objects := objects c; activeObject := i;
     backgroundColor := backgroundColor c; disposed := disposed c |}.

(** Modelled from the library: fabric's [canvas.dispose()] empties the
    canvas (no event is fired for the objects) and detaches it from the
    page; the canvas object itself stays where the ref points. *)
Definition dispose (c : Canvas) : Canvas :=
  {| objects := []; activeObject := activeObject c;
     backgroundColor := backgroundColor c; disposed := true |}.

Definition getActiveObject (c : Canvas) : option (nat * FabricObject) :=
  match activeObject c with
  | None => None
  | Some i => match nth_error (objects c) i with
              | Some o => Some (i, o)
              | None => None
              end
  end.

Fixpoint replaceAt {A : Type} (i : nat) (x : A) (l : list A) : list A :=
  match l, i with
  | [], _ => []
  | _ :: t, O => x :: t
  | h :: t, S j => h :: replaceAt j x t
  end.

Fixpoint removeAt {A : Type} (i : nat) (l : list A) : list A :=
  match l, i with
  | [], _ => []
  | _ :: t, O => t
  | h :: t, S j => h :: removeAt j t
  end.

(** Modelled from the library: fabric's [canvas.loadFromJSON(json, cb)]
    returns at once, without calling [cb], when [json] is undefined;
    otherwise it replaces the objects and the background by those of
    [json] (the selection is dropped) and then calls [cb].  The result is
    the canvas and whether [cb] was called.  The [object:removed] and
    [object:added] events fabric fires while it replaces the objects are
    left out. *)
Definition loadFromJSON (json : option Snapshot) (c : Canvas)
    : Canvas * bool :=
  match json with
  | None => (c, false)
  | Some s =>
      ({| objects := snap_objects s; activeObject := None;
          backgroundColor := snap_background s; disposed := disposed c |},
       true)
  end.

(** ** The state of [DrawingPanel] *)

(** [saveHistory_historyIndex] is the [historyIndex] that the closure
    [saveHistory] sees: the handler is created by the effect of line 76,
    which runs only when [isDrawingPanelOpen] changes, so it keeps the
    value of the render in which the panel was opened. *)
Record Panel : Type := {
  fabricRef : option Canvas;
  color : string;
  name : string;
  history : list Snapshot;
  historyIndex : Z;
  saveHistory_historyIndex : Z;
  gradient : option Gradient;
  textStyle : TextStyle
}.

(** The state of the first render: the [useState] initial values. *)
Definition initialPanel : Panel :=
  {| fabricRef := None;
     color := "#00ffc3";
     name := "";
     history := [];
     historyIndex := -1;
     saveHistory_historyIndex := -1;
     gradient := None;
     textStyle := {| ts_fontFamily := "Share Tech Mono";
                     ts_fontSize := num 30;
                     ts_fontWeight := "normal";
                     ts_fontStyle := "normal";
                     ts_underline := false |} |}.

Definition set_fabricRef (c : option Canvas) (p : Panel) : Panel :=
  {| fabricRef := c; color := color p; name := name p;
     history := history p; historyIndex := historyIndex p;
     saveHistory_historyIndex := saveHistory_historyIndex p;
     gradient := gradient p; textStyle := textStyle p |}.

Definition setName (n : string) (p : Panel) : Panel :=
  {| fabricRef := fabricRef p; color := color p; name := n;
     history := history p; historyIndex := historyIndex p;
     saveHistory_historyIndex := saveHistory_historyIndex p;
     gradient := gradient p; textStyle := textStyle p |}.

Definition setColor (c : string) (p : Panel) : Panel :=
  {| fabricRef := fabricRef p; color := c; name := name p;
     history := history p; historyIndex := historyIndex p;
     saveHistory_historyIndex := saveHistory_historyIndex p;
     gradient := gradient p; textStyle := textStyle p |}.

Definition setHistory (h : list Snapshot) (p : Panel) : Panel :=
  {| fabricRef := fabricRef p; color := color p; name := name p;
     history := h; historyIndex := historyIndex p;
     saveHistory_historyIndex := saveHistory_historyIndex p;
     gradient := gradient p; textStyle := textStyle p |}.

Definition setHistoryIndex (i : Z) (p : Panel) : Panel :=
  {| fabricRef := fabricRef p; color := color p; name := name p;
     history := history p; historyIndex := i;
     saveHistory_historyIndex := saveHistory_historyIndex p;
     gradient := gradient p; textStyle := textStyle p |}.

Definition capture_historyIndex (i : Z) (p : Panel) : Panel :=
  {| fabricRef := fabricRef p; color := color p; name := name p;
     history := history p; historyIndex := historyIndex p;
     saveHistory_historyIndex := i;
     gradient := gradient p; textStyle := textStyle p |}.

(** ** History (lines 108-123 and 147-161) *)

(** The effect of line 76 when the panel has just been opened: a new
    canvas, the history reset to its snapshot, and [saveHistory]
    registered for [object:added], [object:modified], [object:removed].
    The state setters take effect in the next render; the handler keeps
    the [historyIndex] of this one. *)
Definition openEffect (p : Panel) : Panel :=
  let canvas := newCanvas in
  let seen := historyIndex p in
  let p := set_fabricRef (Some canvas) p in
  let initialState := toJSON canvas in
  let p := setHistory [initialState] p in
  let p := setHistoryIndex 0 p in
  capture_historyIndex seen p.

(** The cleanup of that effect: [canvas.dispose()]; the ref keeps the
    canvas. *)
Definition closeEffect (p : Panel) : Panel :=
  set_fabricRef (option_map dispose (fabricRef p)) p.

Definition saveHistory (p : Panel) : Panel :=
  match fabricRef p with
  | None => p
  | Some canvas =>
      let state := toJSON canvas in
      let p := setHistory
                 (JS.slice0 (history p) (saveHistory_historyIndex p + 1)
                  ++ [state]) p in
      setHistoryIndex (historyIndex p + 1) p
  end.

(** A committed change of the content, as fabric reports it. *)
Inductive CanvasChange : Type :=
| ObjectAdded (o : FabricObject)
| ObjectModified (i : nat) (o : FabricObject)
| ObjectRemoved (i : nat).

Definition changeObjects (ch : CanvasChange) (os : list FabricObject)
    : list FabricObject :=
  match ch with
  | ObjectAdded o => os ++ [o]
  | ObjectModified i o => replaceAt i o os
  | ObjectRemoved i => removeAt i os
  end.

(** The canvas changes and fires its event; [saveHistory] listens. *)
Definition commit (ch : CanvasChange) (p : Panel) : Panel :=
  match fabricRef p with
  | None => p
  | Some canvas =>
      saveHistory
        (set_fabricRef
           (Some (set_objects (changeObjects ch (objects canvas)) canvas)) p)
  end.

Definition undo (p : Panel) : Panel :=
  match fabricRef p with
  | None => p
  | Some canvas =>
      if historyIndex p <=? 0 then p
      else
        let (canvas', called) :=
          loadFromJSON (JS.index (history p) (historyIndex p - 1)) canvas in
        let p' := set_fabricRef (Some canvas') p in
        if called then setHistoryIndex (historyIndex p - 1) p' else p'
  end.

Definition redo (p : Panel) : Panel :=
  match fabricRef p with
  | None => p
  | Some canvas =>
      if historyIndex p >=? Z.of_nat (List.length (history p)) - 1 then p
      else
        let (canvas', called) :=
          loadFromJSON (JS.index (history p) (historyIndex p + 1)) canvas in
        let p' := set_fabricRef (Some canvas') p in
        if called then setHistoryIndex (historyIndex p + 1) p' else p'
  end.

(** ** Shapes and text (lines 192-234) *)

Inductive ShapeType : Type := rect | circle | triangle.

Definition shapeFill (p : Panel) : Fill :=
  match gradient p with
  | Some g => GradientFill g
  | None => Transparent
  end.

Definition addShape (type : ShapeType) (p : Panel) : Panel :=
  let mk b l t :=
    {| body := b; left := l; top := t; fill := shapeFill p;
       stroke := Some (color p); strokeWidth := 3; filters := None |} in
  let shape :=
    match type with
    | rect => mk (Rect 80 60) 100 100
    | circle => mk (Circle 40) 150 150
    | triangle => mk (Triangle 80 80) 200 200
    end in
  commit (ObjectAdded shape) p.

Definition addText (p : Panel) : Panel :=
  let text :=
    {| body := IText "LANDMARK" (textStyle p); left := 100; top := 100;
       fill := ColorFill (color p); stroke := None; strokeWidth := 1;
       filters := None |} in
  commit (ObjectAdded text) p.

(** The callback of [fabric.Image.fromURL] in [importImage]; the image
    keeps the default fill of fabric. *)
Definition imageLoaded (img : Bitmap) (p : Panel) : Panel :=
  let o :=
    {| body := Image img img (1 # 2) (1 # 2); left := 100; top := 100;
       fill := ColorFill "rgb(0,0,0)"; stroke := None; strokeWidth := 0;
       filters := Some [] |} in
  commit (ObjectAdded o) p.

(** ** Effects the handlers have outside the state *)

(** The record handed to the persistence service. *)
Record Payload : Type := {
  pl_name : string;
  pl_lat : JS.number;
  pl_lng : JS.number;
  pl_drawing_data : string
}.

Inductive Effect : Type :=
| Alert (msg : string)
| ConsoleError (msg : string)
| Insert (payload : Payload)          (* supabase.from('landmarks').insert *)
| Uncaught (msg : string).            (* an exception nobody catches *)

(** The answer to an insert, as the contract of the persistence service
    gives it (create returns the stored row or an error).  A rejected
    promise and a returned [error] both reach the [catch] with a message. *)
Inductive InsertResult : Type :=
| Failed (message : string)
| Saved (row : StoredLandmark).

(** The page: the store and the state of the panel. *)
Record App : Type := {
  store : Store;
  panel : Panel
}.

Definition initialApp : App :=
  {| store := initialStore; panel := initialPanel |}.

Section Editor.

(** The pixel work of fabric and of the browser stays abstract: what one
    filter does to a bitmap, and the PNG data URL of a canvas. *)
Variable runFilter : Filter -> Bitmap -> Bitmap.
Variable toDataURL : Canvas -> string.

(** ** Filters (lines 163-190) *)

Definition filtersOf (o : FabricObject) : list Filter :=
  match filters o with
  | Some fs => fs
  | None => []
  end.

Definition push (f : Filter) (o : FabricObject) : FabricObject :=
  set_filters (Some (filtersOf o ++ [f])%list) o.

(** Modelled from the library: [fabric.Image.prototype.applyFilters()]
    runs the filters of the object, in order, on its original element and
    keeps the result as its element; no other class has the method, and
    calling it there throws a TypeError ([None]). *)
Definition applyFilters (o : FabricObject) : option FabricObject :=
  match body o with
  | Image originalElement _ sx sy =>
      let element :=
        fold_left (fun b f => runFilter f b) (filtersOf o) originalElement in
      Some (set_body (Image originalElement element sx sy) o)
  | _ => None
  end.

Definition applyFilter (filterType : string) (p : Panel)
    : Panel * list Effect :=
  match fabricRef p with
  | None => (p, [])
  | Some canvas =>
      match getActiveObject canvas with
      | None => (p, [Alert "Please select an object first."])
      | Some (i, activeObject) =>
          let o := match filters activeObject with
                   | None => set_filters (Some []) activeObject
                   | Some _ => activeObject
                   end in
          let o := set_filters (Some []) o in        (* clear existing *)
          let o :=
            if String.eqb filterType "blur" then push (Blur (1 # 2)) o
            else if String.eqb filterType "grayscale" then push Grayscale o
            else if String.eqb filterType "brightness" then
              push (Brightness (1 # 5)) o
            else if String.eqb filterType "contrast" then
              push (Contrast (3 # 10)) o
            else o in
          let put o' :=
            set_fabricRef
              (Some (set_objects (replaceAt i o' (objects canvas)) canvas)) p in
          match applyFilters o with
          | None => (put o, [Uncaught "activeObject.applyFilters is not a function"])
          | Some o' => (put o', [])
          end
      end
  end.

(** ** Opening and closing the panel *)

(** The commit that follows a change of the store: the effect of line 76
    depends on [isDrawingPanelOpen] only.  The render is taken to
    succeed; a render that throws is outside this model. *)
Definition rerender (wasOpen : bool) (a : App) : App :=
  match wasOpen, isDrawingPanelOpen (store a) with
  | false, true => {| store := store a; panel := openEffect (panel a) |}
  | true, false => {| store := store a; panel := closeEffect (panel a) |}
  | _, _ => a
  end.

Definition setStore (s : Store) (a : App) : App :=
  rerender (isDrawingPanelOpen (store a)) {| store := s; panel := panel a |}.

Definition onPanel (f : Panel -> Panel) (a : App) : App :=
  {| store := store a; panel := f (panel a) |}.

(** ** Saving (lines 250-280) *)

(** [handleSave] up to its [await]. *)
Definition handleSave (a : App) : App * list Effect :=
  if negb (JS.truthy (JS.trim (name (panel a)))) then
    (a, [Alert "Enter a designation"])
  else
    match fabricRef (panel a) with
    | None => (a, [])
    | Some canvas =>
        let drawingData := toDataURL canvas in
        let payload :=
          {| pl_name := name (panel a);
             pl_lat := currentLat (store a);
             pl_lng := currentLng (store a);
             pl_drawing_data := drawingData |} in
        (a, [Insert payload])
    end.

(** The message of the TypeError of [[...state.landmarks, landmark]] when
    the field holds a function. *)
Definition notIterable : string := "state.landmarks is not iterable".

Definition saveFailed (message : string) : list Effect :=
  [ConsoleError ("Save failed " ++ message);
   Alert ("Save failed: " ++ message)].

(** [handleSave] after its [await], when the insert has been answered. *)
Definition handleSave_resume (res : InsertResult) (a : App)
    : App * list Effect :=
  match res with
  | Failed message => (a, saveFailed message)
  | Saved row =>
      match addLandmark row (store a) with
      | None => (a, saveFailed notIterable)
      | Some s =>
          let a := setStore s a in
          let a := setStore (setDrawingPanel false None None (store a)) a in
          let a := onPanel (setName "") a in
          (a, [])
      end
  end.

(** ** The events of the page *)

Inductive Event : Type :=
| Click (point : Point)                (* on the sphere *)
| Cancel
| NameInput (value : string)
| ColorInput (value : string)
| Select (i : option nat)              (* fabric selects or deselects *)
| AddShape (type : ShapeType)
| AddText
| ImageLoaded (img : Bitmap)
| Change (ch : CanvasChange)           (* the user edits an object *)
| Undo
| Redo
| ApplyFilter (filterType : string)
| Save
| SaveAnswered (res : InsertResult)
| LandmarksFetched (rows : list StoredLandmark)
| RealtimeInsert (row : StoredLandmark).

Definition quiet (a : App) : App * list Effect := (a, []).

Definition step (e : Event) (a : App) : App * list Effect :=
  match e with
  | Click point => quiet (setStore (handleClick point (store a)) a)
  | Cancel => quiet (setStore (setDrawingPanel false None None (store a)) a)
  | NameInput v => quiet (onPanel (setName v) a)
  | ColorInput v => quiet (onPanel (setColor v) a)
  | Select i =>
      quiet (onPanel (fun p =>
               set_fabricRef (option_map (set_active i) (fabricRef p)) p) a)
  | AddShape t => quiet (onPanel (addShape t) a)
  | AddText => quiet (onPanel addText a)
  | ImageLoaded img => quiet (onPanel (imageLoaded img) a)
  | Change ch => quiet (onPanel (commit ch) a)
  | Undo => quiet (onPanel undo a)
  | Redo => quiet (onPanel redo a)
  | ApplyFilter t =>
      let (p, out) := applyFilter t (panel a) in
      ({| store := store a; panel := p |}, out)
  | Save => handleSave a
  | SaveAnswered res => handleSave_resume res a
  | LandmarksFetched rows => quiet (setStore (setLandmarks (LmArray rows) (store a)) a)
  | RealtimeInsert row =>
      (* setLandmarks(prev => [...prev, payload.new]) *)
      quiet (setStore (setLandmarks (LmAppender row) (store a)) a)
  end.

(** A sequence of events, with everything it emitted, in order. *)
Fixpoint run (es : list Event) (a : App) : App * list Effect :=
  match es with
  | [] => (a, [])
  | e :: es' =>
      let (a1, out1) := step e a in
      let (a2, out2) := run es' a1 in
      (a2, (out1 ++ out2)%list)
  end.

End Editor.

(** The persistence calls among the effects. *)
Fixpoint inserts (out : list Effect) : list Payload :=
  match out with
  | [] => []
  | Insert p :: out' => p :: inserts out'
  | _ :: out' => inserts out'
  end.

End Layout.

(* ================================================================== *)
(** * Concrete states for the examples *)
(* ================================================================== *)

Import Layout.

Local Open Scope string_scope.

(** What is on the canvas. *)
Definition rendered (p : Panel) : option Snapshot :=
  option_map toJSON (fabricRef p).

(** The panel as the effect leaves it when it is opened for the first time,
    and three edits. *)
Definition opened : Panel := openEffect initialPanel.
Definition E1 : Panel -> Panel := addShape rect.
Definition E2 : Panel -> Panel := addShape circle.
Definition E3 : Panel -> Panel := addShape triangle.

(** A stored row and a store that holds it. *)
Definition outpost : StoredLandmark :=
  {| lm_id := 1; lm_name := "Outpost-1";
     lm_lat := num 12; lm_lng := num (-56);
     lm_drawing_data := "data:image/png;base64,iVBORw0KGgo=" |}.

Definition storeWithOutpost : Store :=
  setLandmarks (LmArray [outpost]) initialStore.

(** Stand-ins for the pixel work, to run the panel on examples. *)
Definition plainFilter (f : Filter) (b : Bitmap) : Bitmap := b.
Definition plainPNG (c : Canvas) : string := "data:image/png;base64,iVBORw0KGgo=".

(** The page after a click that opened the panel at (12, -56), with the
    name typed in, and the same with a blank name. *)
Definition drawing : App :=
  {| store := setDrawingPanel true (Some (num 12)) (Some (num (-56)))
                initialStore;
     panel := setName "Outpost-1" opened |}.

Definition drawingUnnamed : App :=
  {| store := store drawing; panel := setName "   " opened |}.

(** The payload a save request sends from the state [a] with canvas [c]. *)
Definition payloadOf (toDataURL : Canvas -> string) (a : App) (c : Canvas)
    : Payload :=
  {| pl_name := name (panel a);
     pl_lat := currentLat (store a);
     pl_lng := currentLng (store a);
     pl_drawing_data := toDataURL c |}.

(** The filters the switch of [applyFilter] pushes for [filterType]. *)
Definition chosen (filterType : string) : list Filter :=
  if String.eqb filterType "blur" then [Blur (1 # 2)]
  else if String.eqb filterType "grayscale" then [Grayscale]
  else if String.eqb filterType "brightness" then [Brightness (1 # 5)]
  else if String.eqb filterType "contrast" then [Contrast (3 # 10)]
  else [].

(** The [r] of [handleClick]: the distance of the point from the centre. *)
Definition radius (point : Point) : JS.number :=
  let x := px point in
  let y := py point in
  let z := pz point in
  JS.Math_sqrt (x * x + y * y + z * z)%js.

(** The centre of the sphere and its north pole. *)
Definition centre : Point := {| px := num 0; py := num 0; pz := num 0 |}.
Definition northPole : Point := {| px := num 0; py := num 5; pz := num 0 |}.

(* ================================================================== *)
(** * The scene: sprites, grid lines, zoom *)
(* ================================================================== *)

(** ** More of the Math object *)

Definition Math_sin (a : JS.number) : JS.number :=
  match a with
  | JS.Fin x => JS.Fin (sin x)
  | _ => JS.NaN
  end.

Definition Math_cos (a : JS.number) : JS.number :=
  match a with
  | JS.Fin x => JS.Fin (cos x)
  | _ => JS.NaN
  end.

Definition Math_min (a b : JS.number) : JS.number :=
  match a, b with
  | JS.NaN, _ | _, JS.NaN => JS.NaN
  | JS.NegInf, _ | _, JS.NegInf => JS.NegInf
  | JS.PosInf, v | v, JS.PosInf => v
  | JS.Fin x, JS.Fin y => JS.Fin (Rmin x y)
  end.

Definition Math_max (a b : JS.number) : JS.number :=
  match a, b with
  | JS.NaN, _ | _, JS.NaN => JS.NaN
  | JS.PosInf, _ | _, JS.PosInf => JS.PosInf
  | JS.NegInf, v | v, JS.NegInf => v
  | JS.Fin x, JS.Fin y => JS.Fin (Rmax x y)
  end.

(** A decimal literal [n / d] of the source. *)
Definition dec (n : Z) (d : Z) : JS.number := JS.Fin (IZR n / IZR d).

(** [for (let v = start; v <= stop; v += step)]: the values [v] takes.
    The loop stops at its test; [fuel] bounds the unrolling. *)
Fixpoint countUp (fuel : nat) (v stop step : Z) : list Z :=
  match fuel with
  | O => []
  | S k => if (v <=? stop)%Z then v :: countUp k (v + step)%Z stop step
           else []
  end.

Definition forValues (start stop step : Z) : list Z :=
  countUp (S (Z.to_nat (stop - start))) start stop step.

(** [Array.from({ length: n }).map((_, i) => f i)] *)
Definition arrayFromMap {A : Type} (n : nat) (f : Z -> A) : list A :=
  map (fun i => f (Z.of_nat i)) (seq 0 n).

Module Scene.

Local Open Scope js_scope.

(** ** [Landmarks], layout.jsx lines 568-598 (part_002 lines 120-150) *)

Record Sprite : Type := {
  key : Z;
  position : Point;
  texture : string                    (* the [src] of the image *)
}.

Definition sprite (lm : StoredLandmark) : Sprite :=
  let lat := lm_lat lm in
  let lng := lm_lng lm in
  let drawing_data := lm_drawing_data lm in
  let id := lm_id lm in
  let phi := (num 90 - lat) * JS.Math_PI / num 180 in
  let theta := lng * JS.Math_PI / num 180 in
  let r := dec 515 100 in
  {| key := id;
     position := {| px := r * Math_sin phi * Math_cos theta;
                    py := r * Math_cos phi;
                    pz := r * Math_sin phi * Math_sin theta |};
     texture := drawing_data |}.

(** The component of layout.jsx: [landmarks.map(...)]; on a value that is
    no array the call throws a TypeError ([None]). *)
Definition Landmarks (s : Store) : option (list Sprite) :=
  match landmarks s with
  | LmArray rows => Some (map sprite rows)
  | LmAppender _ => None
  end.

(** ** The grid of [Earth], layout.jsx lines 503-540 (part_002 72-114) *)

Definition gridPoint (lat lon : Z) : Point :=
  let phi := (num 90 - num lat) * JS.Math_PI / num 180 in
  let theta := num lon * JS.Math_PI / num 180 in
  {| px := num 5 * Math_sin phi * Math_cos theta;
     py := num 5 * Math_cos phi;
     pz := num 5 * Math_sin phi * Math_sin theta |}.

(** Twelve lines of longitude, one every 30 degrees. *)
Definition longitudeLines : list (list Point) :=
  arrayFromMap 12 (fun i =>
    let lon := (i * 30)%Z in
    map (fun lat => gridPoint lat lon) (forValues (-80) 80 5)).

(** Five lines of latitude, from -60 to 60. *)
Definition latitudeLines : list (list Point) :=
  arrayFromMap 5 (fun j =>
    let lat := (-60 + j * 30)%Z in
    map (fun lon => gridPoint lat lon) (forValues 0 360 5)).

(** The ring in the plane y = 0. *)
Definition ring : list Point :=
  arrayFromMap 73 (fun k =>
    let theta := num k * num 5 * JS.Math_PI / num 180 in
    {| px := num 5 * Math_cos theta;
       py := num 0;
       pz := num 5 * Math_sin theta |}).

(** ** The zoom buttons, layout.jsx lines 299 and 302 *)

Definition zoomIn (z : JS.number) : JS.number :=
  Math_min (z + dec 1 10) (num 3).

Definition zoomOut (z : JS.number) : JS.number :=
  Math_max (z - dec 1 10) (dec 5 10).

(** [useState(1)] *)
Definition initialZoom : JS.number := num 1.

Inductive ZoomClick : Type := ZoomInClick | ZoomOutClick.

Definition zoomStep (z : JS.number) (c : ZoomClick) : JS.number :=
  match c with
  | ZoomInClick => zoomIn z
  | ZoomOutClick => zoomOut z
  end.

End Scene.

(* ================================================================== *)
(** * The brushes of the panel (layout.jsx lines 87-104 and 130-144) *)
(* ================================================================== *)

Module Brushes.

Local Open Scope Z_scope.

Record Brush : Type := {
  br_color : string;
  br_width : Z;
  br_density : option Z;
  br_source : option string
}.

(** The three brush objects the effect of line 76 creates. *)
Inductive BrushRef : Type := Pencil | Spray | Pattern.

(** The brush fields of the canvas; [freeDrawingBrush] refers to one of
    the three objects. *)
Record CanvasBrushes : Type := {
  pencilBrush : Brush;
  sprayBrush : Brush;
  patternBrush : Brush;
  freeDrawingBrush : BrushRef
}.

(** The state the brush effects read. *)
Record Settings : Type := {
  brushType : string;
  color : string;
  brushSize : Z;
  isErasing : bool
}.

(** [useState] initial values. *)
Definition initialSettings : Settings :=
  {| brushType := "pencil"; color := "#00ffc3"; brushSize := 5;
     isErasing := false |}.

(** The [source] of the pattern brush (its double quotes written as
    apostrophes). *)
Definition patternSource : string :=
  "data:image/svg+xml;utf8,<svg xmlns='http://www.w3.org/2000/svg' width='20' height='20'><circle cx='10' cy='10' r='5' fill='black'/></svg>".

(** Lines 87-104: the brushes of a new canvas. *)
Definition createBrushes (st : Settings) : CanvasBrushes :=
  {| pencilBrush := {| br_color := color st; br_width := brushSize st;
                       br_density := None; br_source := None |};
     sprayBrush := {| br_color := color st; br_width := brushSize st;
                      br_density := Some 20; br_source := None |};
     patternBrush := {| br_color := color st; br_width := brushSize st;
                        br_density := None;
                        br_source := Some patternSource |};
     freeDrawingBrush := Pencil |}.

Definition deref (r : BrushRef) (cb : CanvasBrushes) : Brush :=
  match r with
  | Pencil => pencilBrush cb
  | Spray => sprayBrush cb
  | Pattern => patternBrush cb
  end.

Definition assign (r : BrushRef) (b : Brush) (cb : CanvasBrushes)
    : CanvasBrushes :=
  match r with
  | Pencil => {| pencilBrush := b; sprayBrush := sprayBrush cb;
                 patternBrush := patternBrush cb;
                 freeDrawingBrush := freeDrawingBrush cb |}
  | Spray => {| pencilBrush := pencilBrush cb; sprayBrush := b;
                patternBrush := patternBrush cb;
                freeDrawingBrush := freeDrawingBrush cb |}
  | Pattern => {| pencilBrush := pencilBrush cb; sprayBrush := sprayBrush cb;
                  patternBrush := b;
                  freeDrawingBrush := freeDrawingBrush cb |}
  end.

Definition set_freeDrawingBrush (r : BrushRef) (cb : CanvasBrushes)
    : CanvasBrushes :=
  {| pencilBrush := pencilBrush cb; sprayBrush := sprayBrush cb;
     patternBrush := patternBrush cb; freeDrawingBrush := r |}.

(** Lines 130-144, run when [brushType], [color], [brushSize] or
    [isErasing] changes and a canvas exists.  The default case of the
    switch takes the brush the canvas is using. *)
Definition updateBrush (st : Settings) (cb : CanvasBrushes)
    : CanvasBrushes :=
  let brush :=
    if String.eqb (brushType st) "spray" then Spray
    else if String.eqb (brushType st) "calligraphic" then Pattern
    else freeDrawingBrush cb in
  let cb := set_freeDrawingBrush brush cb in
  let b := deref brush cb in
  let b := {| br_color := if isErasing st then "#1a1a1a" else color st;
              br_width := br_width b; br_density := br_density b;
              br_source := br_source b |} in
  let b := {| br_color := br_color b; br_width := brushSize st;
              br_density := br_density b; br_source := br_source b |} in
  let b := if String.eqb (brushType st) "spray"
           then {| br_color := br_color b; br_width := br_width b;
                   br_density := Some 20; br_source := br_source b |}
           else b in
  assign brush b cb.

(** The brush a stroke would be drawn with. *)
Definition current (cb : CanvasBrushes) : Brush :=
  deref (freeDrawingBrush cb) cb.

End Brushes.

(* ================================================================== *)
(** * The drawing panel of the older variant (src/unnamed/part_002) *)
(* ================================================================== *)

Module Panel002.

Local Open Scope Z_scope.

(** The state of [DrawingPanel], lines 153-160. *)
Record Panel : Type := {
  fabricCanvasRef : option Canvas;
  color : string;
  brushSize : Z;
  isErasing : bool;
  name : string
}.

Definition initialPanel : Panel :=
  {| fabricCanvasRef := None; color := "#00ffc3"; brushSize := 5;
     isErasing := false; name := "" |}.

Definition set_canvas (c : option Canvas) (p : Panel) : Panel :=
  {| fabricCanvasRef := c; color := color p; brushSize := brushSize p;
     isErasing := isErasing p; name := name p |}.

Definition setName (n : string) (p : Panel) : Panel :=
  {| fabricCanvasRef := fabricCanvasRef p; color := color p;
     brushSize := brushSize p; isErasing := isErasing p; name := n |}.

Definition setColor (c : string) (p : Panel) : Panel :=
  {| fabricCanvasRef := fabricCanvasRef p; color := c;
     brushSize := brushSize p; isErasing := isErasing p; name := name p |}.

(** Lines 163-186: the effect that follows [isDrawingPanelOpen]. *)
Definition openEffect (p : Panel) : Panel := set_canvas (Some newCanvas) p.

Definition closeEffect (p : Panel) : Panel :=
  set_canvas (option_map dispose (fabricCanvasRef p)) p.

(** Lines 201-206.  [clear()] removes the objects and the selection. *)
Definition handleClear (p : Panel) : Panel :=
  match fabricCanvasRef p with
  | None => p
  | Some c =>
      set_canvas
        (Some {| objects := []; activeObject := None;
                 backgroundColor := "#1a1a1a"; disposed := disposed c |}) p
  end.

(** Lines 209-214: placeholders. *)
Definition handleUndo (p : Panel) : Panel * list Effect :=
  (p, [Alert "Undo not fully implemented in this demo"]).

Definition handleRedo (p : Panel) : Panel * list Effect :=
  (p, [Alert "Redo not fully implemented"]).

Definition add (o : FabricObject) (p : Panel) : Panel :=
  match fabricCanvasRef p with
  | None => p
  | Some c => set_canvas (Some (set_objects (objects c ++ [o]) c)) p
  end.

(** Lines 217-227. *)
Definition handleAddText (p : Panel) : Panel :=
  let text :=
    {| body := IText "LANDMARK"
                 {| ts_fontFamily := "Share Tech Mono";
                    ts_fontSize := num 30;
                    ts_fontWeight := "normal";
                    ts_fontStyle := "normal";
                    ts_underline := false |};
       left := 100; top := 100;
       fill := ColorFill (color p); stroke := None; strokeWidth := 1;
       filters := None |} in
  add text p.

(** Lines 230-242. *)
Definition handleAddRect (p : Panel) : Panel :=
  let rect :=
    {| body := Rect 80 60; left := 150; top := 150;
       fill := Transparent; stroke := Some (color p); strokeWidth := 3;
       filters := None |} in
  add rect p.

Record App : Type := {
  store : Store;
  panel : Panel
}.

Definition initialApp : App :=
  {| store := initialStore; panel := initialPanel |}.

Definition rerender (wasOpen : bool) (a : App) : App :=
  match wasOpen, isDrawingPanelOpen (store a) with
  | false, true => {| store := store a; panel := openEffect (panel a) |}
  | true, false => {| store := store a; panel := closeEffect (panel a) |}
  | _, _ => a
  end.

Definition setStore (s : Store) (a : App) : App :=
  rerender (isDrawingPanelOpen (store a)) {| store := s; panel := panel a |}.

Definition onPanel (f : Panel -> Panel) (a : App) : App :=
  {| store := store a; panel := f (panel a) |}.

Section Saving.

Variable toDataURL : Canvas -> string.

(** Lines 245-261: [handleSave] up to its [await]. *)
Definition handleSave (a : App) : App * list Effect :=
  if negb (JS.truthy (JS.trim (name (panel a)))) then
    (a, [Alert "Enter a designation"])
  else
    match fabricCanvasRef (panel a) with
    | None => (a, [])
    | Some canvas =>
        let drawingData := toDataURL canvas in
        let payload :=
          {| pl_name := name (panel a);
             pl_lat := currentLat (store a);
             pl_lng := currentLng (store a);
             pl_drawing_data := drawingData |} in
        (a, [Insert payload])
    end.

(** Lines 262-279: [handleSave] after its [await].  The handler sets the
    store and the name and clears the canvas before the page renders
    again, so the cleanup of the effect comes last.  [handleClear] is
    taken on a canvas that has not been disposed; what is emitted when it
    throws on a disposed one is not modelled. *)
Definition handleSave_resume (res : InsertResult) (a : App)
    : App * list Effect :=
  match res with
  | Failed message => (a, saveFailed message)
  | Saved row =>
      match addLandmark row (store a) with
      | None => (a, saveFailed notIterable)
      | Some s =>
          let wasOpen := isDrawingPanelOpen (store a) in
          let s := setDrawingPanel false None None s in
          let p := setName "" (panel a) in
          let p := handleClear p in
          (rerender wasOpen {| store := s; panel := p |}, [])
      end
  end.

Inductive Event : Type :=
| Click (point : Point)
| Cancel
| NameInput (value : string)
| ColorInput (value : string)
| Clear
| Undo
| Redo
| AddText
| AddRect
| Save
| SaveAnswered (res : InsertResult)
| LandmarksFetched (rows : list StoredLandmark).

Definition quiet (a : App) : App * list Effect := (a, []).

Definition step (e : Event) (a : App) : App * list Effect :=
  match e with
  | Click point => quiet (setStore (Part002.handleClick point (store a)) a)
  | Cancel => quiet (setStore (setDrawingPanel false None None (store a)) a)
  | NameInput v => quiet (onPanel (setName v) a)
  | ColorInput v => quiet (onPanel (setColor v) a)
  | Clear => quiet (onPanel handleClear a)
  | Undo => let (p, out) := handleUndo (panel a) in
            ({| store := store a; panel := p |}, out)
  | Redo => let (p, out) := handleRedo (panel a) in
            ({| store := store a; panel := p |}, out)
  | AddText => quiet (onPanel handleAddText a)
  | AddRect => quiet (onPanel handleAddRect a)
  | Save => handleSave a
  | SaveAnswered res => handleSave_resume res a
  | LandmarksFetched rows =>
      quiet (setStore (setLandmarks (LmArray rows) (store a)) a)
  end.

Fixpoint run (es : list Event) (a : App) : App * list Effect :=
  match es with
  | [] => (a, [])
  | e :: es' =>
      let (a1, out1) := step e a in
      let (a2, out2) := run es' a1 in
      (a2, (out1 ++ out2)%list)
  end.

End Saving.

End Panel002.

(* ================================================================== *)
(** * The landmarks API route (src/unnamed/part_001) *)
(* ================================================================== *)

Module Api.

Local Open Scope Z_scope.

(** A value of a JSON body field, as the handler tests it. *)
Inductive Value : Type :=
| Undefined                          (* the field is absent *)
| Null
| Bool (b : bool)
| Num (n : JS.number)
| Str (s : string)
| Obj.                               (* an array or an object *)

(** [!v] is false exactly for the truthy values. *)
Definition truthy (v : Value) : bool :=
  match v with
  | Undefined | Null => false
  | Bool b => b
  | Num JS.NaN => false
  | Num (JS.Fin x) => if Req_dec_T x 0 then false else true
  | Num _ => true
  | Str s => JS.truthy s
  | Obj => true
  end.

Definition isUndefined (v : Value) : bool :=
  match v with
  | Undefined => true
  | _ => false
  end.

(** The four fields the handler takes from [req.body]. *)
Record Body : Type := {
  name : Value;
  lat : Value;
  lng : Value;
  drawing_data : Value
}.

Record Request : Type := {
  method : string;
  body : Body
}.

(** The answer [{ data, error }] of a supabase call. *)
Inductive Answer : Type :=
| Error (message : string)
| Data (data : list StoredLandmark).

(** The table, as far as the handler sees it. *)
Record Db : Type := {
  selectAll : Answer;
  insertRow : Body -> Answer
}.

Inductive Call : Type :=
| SelectAll
| InsertRow (row : Body).

Inductive ResBody : Type :=
| JsonError (error : string)
| JsonRows (rows : list StoredLandmark)
| JsonRow (row : option StoredLandmark)   (* [data[0]] *)
| Text (s : string).

Record Response : Type := {
  status : Z;
  headers : list (string * list string);
  resBody : ResBody
}.

Definition json (code : Z) (b : ResBody) : Response :=
  {| status := code; headers := []; resBody := b |}.

(** [handler(req, res)]: the response and the calls made to the table. *)
Definition handler (db : Db) (req : Request) : Response * list Call :=
  if String.eqb (method req) "GET" then
    match selectAll db with
    | Error message => (json 500 (JsonError message), [SelectAll])
    | Data data => (json 200 (JsonRows data), [SelectAll])
    end
  else if String.eqb (method req) "POST" then
    let b := body req in
    if negb (truthy (name b)) || isUndefined (lat b) || isUndefined (lng b)
       || negb (truthy (drawing_data b)) then
      (json 400 (JsonError "Missing required fields"), [])
    else
      let row := {| name := name b; lat := lat b; lng := lng b;
                    drawing_data := drawing_data b |} in
      match insertRow db row with
      | Error message => (json 500 (JsonError message), [InsertRow row])
      | Data data => (json 201 (JsonRow (nth_error data 0)), [InsertRow row])
      end
  else
    ({| status := 405;
        headers := [("Allow", ["GET"; "POST"])];
        resBody := Text ("Method " ++ method req ++ " Not Allowed") |}, []).

End Api.

(* ================================================================== *)
(** * More concrete values for the examples *)
(* ================================================================== *)

(** Settings that pick the spray brush, and the initial ones again. *)
Definition spraySettings : Brushes.Settings :=
  {| Brushes.brushType := "spray"; Brushes.color := "#00ffc3";
     Brushes.brushSize := 5; Brushes.isErasing := false |}.

(** No [LandmarksFetched] among the events. *)
Definition noFetch (es : list Layout.Event) : bool :=
  forallb (fun e => match e with
                    | LandmarksFetched _ => false
                    | _ => true
                    end) es.

(** What can happen to the history while the panel is open: a committed
    change; the handler [saveHistory] fired once more (fabric fires the
    object events also while it clears or reloads the canvas); the
    content of the canvas replaced with no event (the background set by
    [clear()], a filter); undo; redo. *)
Inductive HistoryOp : Type :=
| OpCommit (ch : CanvasChange)
| OpFired
| OpContent (c : Canvas)
| OpUndo
| OpRedo.

Definition historyOp (p : Panel) (o : HistoryOp) : Panel :=
  match o with
  | OpCommit ch => commit ch p
  | OpFired => saveHistory p
  | OpContent c =>
      match fabricRef p with
      | Some _ => set_fabricRef (Some c) p
      | None => p
      end
  | OpUndo => undo p
  | OpRedo => redo p
  end.

(** The rows of the inserts that were answered with a stored row. *)
Fixpoint savedRows (es : list Layout.Event) : list StoredLandmark :=
  match es with
  | [] => []
  | SaveAnswered (Saved row) :: es' => row :: savedRows es'
  | _ :: es' => savedRows es'
  end.

(** No [LandmarksFetched] and no [RealtimeInsert] among the events. *)
Definition editorOnly (es : list Layout.Event) : bool :=
  forallb (fun e => match e with
                    | LandmarksFetched _ | RealtimeInsert _ => false
                    | _ => true
                    end) es.

(** What an event of the older variant does to the rows of the
    collection. *)
Definition collect002 (rows : list StoredLandmark) (e : Panel002.Event)
    : list StoredLandmark :=
  match e with
  | Panel002.LandmarksFetched rows' => rows'
  | Panel002.SaveAnswered (Saved row) => rows ++ [row]
  | _ => rows
  end.

(** Every code unit of the string is white space. *)
Fixpoint allWhiteSpace (s : string) : bool :=
  match s with
  | EmptyString => true
  | String c s' => JS.isWhiteSpace c && allWhiteSpace s'
  end.

(** Before the first click there is no canvas, no history and the cursor
    is -1; with a canvas the history is not empty and the cursor is not
    negative. *)
Definition cursorFloor (p : Panel) : Prop :=
  match fabricRef p with
  | None => history p = [] /\ historyIndex p = (-1)%Z
  | Some _ => history p <> [] /\ (0 <= historyIndex p)%Z
  end.

(** In the first session the history has one entry. *)
Definition oneSnapshot (p : Panel) : Prop :=
  (exists c, fabricRef p = Some c)
  /\ saveHistory_historyIndex p = (-1)%Z
  /\ List.length (history p) = 1%nat
  /\ (0 <= historyIndex p)%Z.

(** The first session with an imported image selected, and with a
    rectangle selected. *)
Definition samplePixels : Bitmap := [255; 0; 0; 255]%Z.

Definition selectFirst (p : Panel) : Panel :=
  set_fabricRef (option_map (set_active (Some 0%nat)) (fabricRef p)) p.

Definition withImage : Panel := selectFirst (imageLoaded samplePixels opened).
Definition withRect : Panel := selectFirst (E1 opened).

(** The page of the older variant with the panel open at (12, -56) and a
    name typed in. *)
Definition drawing002 : Panel002.App :=
  {| Panel002.store := store drawing;
     Panel002.panel :=
       Panel002.setName "Outpost-1"
         (Panel002.openEffect Panel002.initialPanel) |}.

(** A table that stores what it is given under id 1, and requests. *)
Definition sampleDb : Api.Db :=
  {| Api.selectAll := Api.Data [outpost];
     Api.insertRow := fun _ => Api.Data [outpost] |}.

Definition blankNamePost : Api.Request :=
  {| Api.method := "POST";
     Api.body := {| Api.name := Api.Str "   ";
                    Api.lat := Api.Num (num 0);
                    Api.lng := Api.Null;
                    Api.drawing_data := Api.Str "data:," |} |}.

Definition noNamePost : Api.Request :=
  {| Api.method := "POST";
     Api.body := {| Api.name := Api.Str "";
                    Api.lat := Api.Num (num 0);
                    Api.lng := Api.Num (num 0);
                    Api.drawing_data := Api.Str "data:," |} |}.

Definition deleteRequest : Api.Request :=
  {| Api.method := "DELETE"; Api.body := Api.body noNamePost |}.

Definition canvasOf (p : Panel) : Canvas :=
  match fabricRef p with
  | Some c => c
  | None => newCanvas
  end.

(** The objects selected in [withImage] and [withRect]. *)
Definition importedImage : FabricObject :=
  {| body := Image samplePixels samplePixels (1 # 2) (1 # 2);
     left := 100; top := 100; fill := ColorFill "rgb(0,0,0)";
     stroke := None; strokeWidth := 0; filters := Some [] |}.

Definition rectangle : FabricObject :=
  {| body := Rect 80 60; left := 100; top := 100; fill := Transparent;
     stroke := Some "#00ffc3"; strokeWidth := 3; filters := None |}.

(** The history is no longer than the cut of [saveHistory] allows. *)
Definition cutBound (p : Panel) : Prop :=
  (-1 <= saveHistory_historyIndex p)%Z
  /\ (-1 <= historyIndex p)%Z
  /\ (List.length (history p)
      <= Z.to_nat (saveHistory_historyIndex p + 2))%nat.


(* ================================================================== *)
(** * Properties *)
(* ================================================================== *)

(** ** The history of the drawing panel *)

Section History.

Local Open Scope Z_scope.

(** Opening resets the history to one snapshot, the cursor to 0, and the
    handler keeps the cursor of the render before. *)
Lemma openEffect_history (p : Panel) :
  history (openEffect p) = [toJSON newCanvas]
  /\ historyIndex (openEffect p) = 0
  /\ saveHistory_historyIndex (openEffect p) = historyIndex p
  /\ rendered (openEffect p) = Some (toJSON newCanvas).
Proof. repeat split. Qed.

(** [saveHistory] cuts at the index the handler captured, not at the
    cursor, and adds one to the cursor. *)
Lemma saveHistory_eq (p : Panel) (c : Canvas) :
  fabricRef p = Some c ->
  history (saveHistory p)
    = (JS.slice0 (history p) (saveHistory_historyIndex p + 1)
       ++ [toJSON c])%list
  /\ historyIndex (saveHistory p) = historyIndex p + 1
  /\ saveHistory_historyIndex (saveHistory p) = saveHistory_historyIndex p
  /\ fabricRef (saveHistory p) = Some c.
Proof.
  intros Hc. unfold saveHistory. rewrite Hc. cbn. rewrite Hc. auto.
Qed.

Lemma slice0_0 (A : Type) (l : list A) : JS.slice0 l 0 = [].
Proof.
  unfold JS.slice0. cbn.
  replace (Z.min 0 (Z.of_nat (List.length l))) with 0 by lia.
  reflexivity.
Qed.

(** In the first session the handler saw the cursor -1: every committed
    change leaves a history of one snapshot, whatever it held before, and
    still adds one to the cursor. *)
Lemma commit_first_session (ch : CanvasChange) (p : Panel) (c : Canvas) :
  fabricRef p = Some c ->
  saveHistory_historyIndex p = -1 ->
  exists c',
    fabricRef (commit ch p) = Some c'
    /\ objects c' = changeObjects ch (objects c)
    /\ history (commit ch p) = [toJSON c']
    /\ historyIndex (commit ch p) = historyIndex p + 1
    /\ saveHistory_historyIndex (commit ch p) = -1.
Proof.
  intros Hc Hseen. unfold commit. rewrite Hc.
  set (c' := set_objects (changeObjects ch (objects c)) c).
  destruct (saveHistory_eq (set_fabricRef (Some c') p) (c := c') eq_refl)
    as (Hh & Hi & Hs & Hf).
  exists c'. rewrite Hh, Hi, Hs, Hf. cbn. rewrite Hseen. cbn.
  rewrite slice0_0. repeat split; reflexivity.
Qed.

(** C1.  History linearity (truncate to the cursor, append, cursor on the
    last index) does not hold of the code.  After the panel is opened the
    history is [[S0]] with cursor 0; after the first edit E1 it is
    [[S1]] with cursor 1, where linearity asks for [[S0; S1]] with cursor
    1: the initial snapshot is gone and the cursor is past the end.  After
    E1, E2, E3 the history holds the snapshot after E3 only, with cursor
    3, so the entry [undo] looks up, [history[2]], is undefined and no
    sequence of undo and redo can bring back the content after E1. *)
Theorem history_not_linear :
  let S0 := toJSON newCanvas in
  let p1 := E1 opened in
  let p3 := E3 (E2 (E1 opened)) in
  (history opened = [S0] /\ historyIndex opened = 0)
  /\ (exists S1, rendered p1 = Some S1
                 /\ history p1 = [S1]
                 /\ history p1 <> [S0; S1]
                 /\ historyIndex p1 = 1
                 /\ historyIndex p1 <> Z.of_nat (List.length (history p1)) - 1)
  /\ (exists S3, rendered p3 = Some S3
                 /\ history p3 = [S3]
                 /\ historyIndex p3 = 3
                 /\ JS.index (history p3) (historyIndex p3 - 1) = None
                 /\ rendered p1 <> Some S3
                 /\ ~ In (rendered p1) (map Some (history p3))).
Proof.
  cbv zeta. split; [split; reflexivity|]. split.
  - eexists. split; [reflexivity|].
    split; [reflexivity|]. split; [discriminate|].
    split; [reflexivity|]. discriminate.
  - eexists. split; [reflexivity|].
    split; [reflexivity|]. split; [reflexivity|]. split; [reflexivity|].
    split; [discriminate|].
    intros [H|[]]. discriminate H.
Qed.

(** C2.  The history starts with one snapshot and cursor 0, whatever the
    panel held before; the invariant (cursor within the history, snapshot
    at the cursor on the canvas) is lost at the first edit: the history
    has one entry, the cursor is 1, and [history[1]] is undefined. *)
Theorem cursor_leaves_history :
  (forall p, List.length (history (openEffect p)) = 1%nat
             /\ historyIndex (openEffect p) = 0
             /\ JS.index (history (openEffect p)) (historyIndex (openEffect p))
                = rendered (openEffect p))
  /\ (let p1 := E1 opened in
      List.length (history p1) = 1%nat
      /\ historyIndex p1 = 1
      /\ ~ (0 <= historyIndex p1 <= Z.of_nat (List.length (history p1)) - 1)
      /\ JS.index (history p1) (historyIndex p1) = None
      /\ JS.index (history p1) (historyIndex p1) <> rendered p1).
Proof.
  split.
  - intros p. repeat split.
  - cbv zeta. split; [reflexivity|]. split; [reflexivity|].
    split; [cbn; lia|]. split; [reflexivity|]. discriminate.
Qed.

(** With the guard of [loadFromJSON] on an undefined argument, undo and
    redo after the three edits find nothing to load and change nothing. *)
Example undo_after_three_edits :
  undo (E3 (E2 (E1 opened))) = E3 (E2 (E1 opened))
  /\ redo (E3 (E2 (E1 opened))) = E3 (E2 (E1 opened)).
Proof. split; reflexivity. Qed.

(** In a later session the handler holds the cursor the session before
    ended with: after one edit, cancel and a new click, it cuts at 2. *)
Example second_session_cut :
  let p := openEffect (closeEffect (E1 opened)) in
  saveHistory_historyIndex p = 1
  /\ List.length (history (E3 (E2 (E1 p)))) = 3%nat
  /\ historyIndex (E3 (E2 (E1 p))) = 3.
Proof. repeat split. Qed.

End History.

(** ** The landmark collection *)

Section Landmarks.

(** While the field holds an array, [addLandmark] puts the row at its end;
    it looks at no id. *)
Lemma addLandmark_array (row : StoredLandmark) (rows : list StoredLandmark)
    (s : Store) :
  landmarks s = LmArray rows ->
  addLandmark row s = Some (setLandmarks (LmArray (rows ++ [row])) s).
Proof. intros H. unfold addLandmark. rewrite H. reflexivity. Qed.

(** C4, as stated, fails: the store holds the row with id 1; adding that
    row again gives a collection of two rows with id 1, not the
    collection it was. *)
Lemma addLandmark_keeps_duplicates :
  In (lm_id outpost) (map lm_id [outpost])
  /\ landmarks storeWithOutpost = LmArray [outpost]
  /\ exists s', addLandmark outpost storeWithOutpost = Some s'
                /\ landmarks s' = LmArray [outpost; outpost]
                /\ landmarks s' <> landmarks storeWithOutpost.
Proof.
  split; [left; reflexivity|]. split; [reflexivity|].
  eexists. split; [reflexivity|]. split; [reflexivity|].
  cbn. intros H. inversion H.
Qed.

(** C4, amended.  On the save path the row is appended whether or not its
    id is already in the collection: the collection after is the
    collection before followed by the row, one entry longer. *)
Theorem addLandmark_appends (row : StoredLandmark)
    (rows : list StoredLandmark) (s : Store) :
  landmarks s = LmArray rows ->
  exists s',
    addLandmark row s = Some s'
    /\ landmarks s' = LmArray (rows ++ [row])
    /\ List.length (rows ++ [row])%list = S (List.length rows)
    /\ isDrawingPanelOpen s' = isDrawingPanelOpen s
    /\ currentLat s' = currentLat s
    /\ currentLng s' = currentLng s.
Proof.
  intros H. eexists. split; [apply addLandmark_array, H|].
  cbn. rewrite length_app. cbn. repeat split. lia.
Qed.

Lemma addLandmark_appends_witness :
  landmarks storeWithOutpost = LmArray [outpost]
  /\ exists s',
       addLandmark outpost storeWithOutpost = Some s'
       /\ landmarks s' = LmArray ([outpost] ++ [outpost])
       /\ List.length ([outpost] ++ [outpost])%list = S (List.length [outpost])
       /\ isDrawingPanelOpen s' = isDrawingPanelOpen storeWithOutpost
       /\ currentLat s' = currentLat storeWithOutpost
       /\ currentLng s' = currentLng storeWithOutpost.
Proof.
  split; [reflexivity|].
  apply (addLandmark_appends outpost (rows := [outpost]) storeWithOutpost).
  reflexivity.
Defined.

End Landmarks.

(** ** Saving *)

Section Saving.

Variable runFilter : Filter -> Bitmap -> Bitmap.
Variable toDataURL : Canvas -> string.

Local Abbreviation step := (Layout.step runFilter toDataURL).
Local Abbreviation run := (Layout.run runFilter toDataURL).
Local Abbreviation payloadOf := (payloadOf toDataURL).

(** The part of [handleSave] before the [await] changes nothing. *)
Lemma handleSave_state (a : App) : fst (handleSave toDataURL a) = a.
Proof.
  unfold handleSave.
  destruct (negb (JS.truthy (JS.trim (name (panel a))))); [reflexivity|].
  destruct (fabricRef (panel a)); reflexivity.
Qed.

Lemma handleSave_named (a : App) (c : Canvas) :
  JS.truthy (JS.trim (name (panel a))) = true ->
  fabricRef (panel a) = Some c ->
  handleSave toDataURL a = (a, [Insert (payloadOf a c)]).
Proof.
  intros Hn Hc. unfold handleSave. rewrite Hn, Hc. reflexivity.
Qed.

Lemma run_cons (e : Event) (es : list Event) (a : App) :
  run (e :: es) a
  = (fst (run es (fst (step e a))),
     (snd (step e a) ++ snd (run es (fst (step e a))))%list).
Proof.
  cbn [Layout.run]. destruct (step e a) as [a1 out1]. cbn [fst snd].
  destruct (run es a1) as [a2 out2]. reflexivity.
Qed.

(** C7.  A name that is empty after trimming: the save request answers
    with the alert "Enter a designation" (the validation error) and
    returns; the whole state is as before, so the panel is still open and
    the canvas, the name and the landmarks are untouched, and no insert
    is sent. *)
Theorem blank_name_refused (a : App) :
  JS.trim (name (panel a)) = "" ->
  step Save a = (a, [Alert "Enter a designation"])
  /\ inserts (snd (step Save a)) = []
  /\ isDrawingPanelOpen (store (fst (step Save a)))
     = isDrawingPanelOpen (store a)
  /\ fabricRef (panel (fst (step Save a))) = fabricRef (panel a)
  /\ name (panel (fst (step Save a))) = name (panel a)
  /\ landmarks (store (fst (step Save a))) = landmarks (store a).
Proof.
  intros Hblank.
  assert (H : step Save a = (a, [Alert "Enter a designation"])).
  { cbn [Layout.step]. unfold handleSave. rewrite Hblank. reflexivity. }
  rewrite H. repeat split.
Qed.

(** C8.  When the insert fails, the continuation of [handleSave] logs and
    alerts and changes nothing: the state is the one it found, panel open
    or not, canvas, name and landmarks included; and a save request
    followed by its failure leaves the state it started from. *)
Theorem failed_save_keeps_state (a : App) (message : string) :
  step (SaveAnswered (Failed message)) a
  = (a, [ConsoleError ("Save failed " ++ message);
         Alert ("Save failed: " ++ message)])
  /\ fst (run [Save; SaveAnswered (Failed message)] a) = a
  /\ inserts (snd (step (SaveAnswered (Failed message)) a)) = [].
Proof.
  split; [reflexivity|]. split; [|reflexivity].
  rewrite run_cons. cbn [Layout.step].
  rewrite handleSave_state. reflexivity.
Qed.

(** Each save request with a name and a canvas sends one insert and
    leaves the state as it is. *)
Lemma save_sends_insert (a : App) (c : Canvas) :
  JS.truthy (JS.trim (name (panel a))) = true ->
  fabricRef (panel a) = Some c ->
  step Save a = (a, [Insert (payloadOf a c)]).
Proof. intros Hn Hc. cbn [Layout.step]. apply handleSave_named; assumption. Qed.

(** C5, amended.  There is no Saving state and nothing disables the save
    button: with a name that is not blank and a canvas, every save
    request sends an insert, also while earlier ones are unanswered;
    [n] requests in a row send [n] inserts and leave the state as it
    is. *)
Theorem every_save_request_inserts (a : App) (c : Canvas) (n : nat) :
  JS.truthy (JS.trim (name (panel a))) = true ->
  fabricRef (panel a) = Some c ->
  run (repeat Save n) a = (a, repeat (Insert (payloadOf a c)) n)
  /\ List.length (inserts (snd (run (repeat Save n) a))) = n.
Proof.
  intros Hn Hc.
  assert (H : run (repeat Save n) a
              = (a, repeat (Insert (payloadOf a c)) n)).
  { induction n as [|n IH]; [reflexivity|].
    cbn [repeat]. rewrite run_cons.
    rewrite (save_sends_insert a Hn Hc). cbn [fst snd].
    rewrite IH. reflexivity. }
  split; [exact H|]. rewrite H. cbn [snd].
  clear H. induction n as [|n IH]; [reflexivity|].
  cbn. rewrite IH. reflexivity.
Qed.

End Saving.

(** C5, as stated, fails: the panel is open with a name; two save
    requests in a row, the first still unanswered, send two inserts. *)
Lemma second_save_sends_second_insert :
  exists a out payload,
    Layout.run plainFilter plainPNG [Save; Save] drawing = (a, out)
    /\ out = [Insert payload; Insert payload]
    /\ List.length (inserts out) = 2%nat.
Proof. do 3 eexists. repeat split. Qed.

Lemma every_save_request_inserts_witness :
  JS.truthy (JS.trim (name (panel drawing))) = true
  /\ fabricRef (panel drawing) = Some newCanvas
  /\ Layout.run plainFilter plainPNG (repeat Save 2) drawing
     = (drawing, repeat (Insert (payloadOf plainPNG drawing newCanvas)) 2)
  /\ List.length
       (inserts (snd (Layout.run plainFilter plainPNG (repeat Save 2) drawing)))
     = 2%nat.
Proof.
  split; [reflexivity|]. split; [reflexivity|].
  apply (every_save_request_inserts plainFilter plainPNG drawing
           (c := newCanvas) 2); reflexivity.
Defined.

Lemma blank_name_refused_witness :
  JS.trim (name (panel drawingUnnamed)) = ""
  /\ Layout.step plainFilter plainPNG Save drawingUnnamed
     = (drawingUnnamed, [Alert "Enter a designation"]).
Proof.
  split; [reflexivity|].
  apply (blank_name_refused plainFilter plainPNG drawingUnnamed).
  reflexivity.
Defined.

(** ** Filters *)

Section Filters.

Variable runFilter : Filter -> Bitmap -> Bitmap.

Local Abbreviation applyFilter := (Layout.applyFilter runFilter).
Local Abbreviation applyFilters := (Layout.applyFilters runFilter).

Lemma nth_error_replaceAt (A : Type) (l : list A) (i : nat) (x y : A) :
  nth_error l i = Some y -> nth_error (replaceAt i x l) i = Some x.
Proof.
  revert i. induction l as [|h t IH]; intros [|i] H; try discriminate.
  - reflexivity.
  - cbn in *. apply IH, H.
Qed.

Lemma replaceAt_twice (A : Type) (l : list A) (i : nat) (x y : A) :
  replaceAt i x (replaceAt i y l) = replaceAt i x l.
Proof.
  revert i. induction l as [|h t IH]; intros [|i]; cbn; try reflexivity.
  now rewrite IH.
Qed.

(** Where the canvas has a selection, [applyFilter] overwrites the
    filters of the selected object by those of [filterType] and calls
    [applyFilters] on it. *)
Lemma applyFilter_selected (filterType : string) (p : Panel) (c : Canvas)
    (i : nat) (o : FabricObject) :
  fabricRef p = Some c ->
  getActiveObject c = Some (i, o) ->
  let o1 := set_filters (Some (chosen filterType)) o in
  let put o' :=
    set_fabricRef (Some (set_objects (replaceAt i o' (objects c)) c)) p in
  applyFilter filterType p
  = match applyFilters o1 with
    | None => (put o1, [Uncaught "activeObject.applyFilters is not a function"])
    | Some o' => (put o', [])
    end.
Proof.
  intros Hc Ha. cbv zeta. unfold Layout.applyFilter. rewrite Hc, Ha.
  unfold chosen.
  destruct (filters o);
    destruct (String.eqb filterType "blur");
    [| destruct (String.eqb filterType "grayscale");
       [| destruct (String.eqb filterType "brightness");
          [| destruct (String.eqb filterType "contrast")]]
     | | destruct (String.eqb filterType "grayscale");
       [| destruct (String.eqb filterType "brightness");
          [| destruct (String.eqb filterType "contrast")]]];
    reflexivity.
Qed.

Lemma getActiveObject_put (c : Canvas) (i : nat) (o o' : FabricObject) :
  getActiveObject c = Some (i, o) ->
  getActiveObject (set_objects (replaceAt i o' (objects c)) c) = Some (i, o').
Proof.
  unfold getActiveObject. cbn.
  destruct (activeObject c) as [j|]; [|discriminate].
  destruct (nth_error (objects c) j) as [x|] eqn:E; [|discriminate].
  intros H. injection H as -> ->.
  rewrite (@nth_error_replaceAt _ _ _ o' _ E). reflexivity.
Qed.

(** Nothing of an earlier filter is left in [applyFilters] of the object
    with its filters overwritten: neither the earlier filters nor the
    element they produced. *)
Lemma applyFilters_overwrites (fs1 fs2 : list Filter) (o : FabricObject) :
  let o1 := set_filters (Some fs1) o in
  let o1' := match applyFilters o1 with Some o' => o' | None => o1 end in
  let o2 := set_filters (Some fs2) o in
  applyFilters (set_filters (Some fs2) o1') = applyFilters o2
  /\ (applyFilters o2 = None -> set_filters (Some fs2) o1' = o2).
Proof.
  cbv zeta. unfold Layout.applyFilters.
  destruct o as [b l t fl st sw fs]. destruct b; cbn;
    (split; [reflexivity | (reflexivity || discriminate)]).
Qed.

(** A call of [applyFilter] leaves nothing for the next call to build on:
    the next call gives what it gives without the call before. *)
Lemma applyFilter_absorbs (t1 t2 : string) (p : Panel) :
  applyFilter t2 (fst (applyFilter t1 p)) = applyFilter t2 p.
Proof.
  destruct (fabricRef p) as [c|] eqn:Hc.
  2:{ unfold Layout.applyFilter. rewrite Hc. cbn. rewrite Hc. reflexivity. }
  destruct (getActiveObject c) as [[i o]|] eqn:Ha.
  2:{ unfold Layout.applyFilter. rewrite Hc, Ha. cbn. rewrite Hc, Ha.
      reflexivity. }
  rewrite (@applyFilter_selected t1 p c i o Hc Ha).
  rewrite (@applyFilter_selected t2 p c i o Hc Ha).
  destruct (applyFilters_overwrites (chosen t1) (chosen t2) o) as [H1 H2].
  cbv zeta in H1, H2.
  set (o1 := set_filters (Some (chosen t1)) o) in *.
  destruct (applyFilters o1) as [o1'|] eqn:E1; cbn [fst].
  - erewrite applyFilter_selected;
      [| reflexivity | apply (@getActiveObject_put c i o o1' Ha)].
    cbv zeta. rewrite H1. cbn [objects set_objects].
    destruct (applyFilters (set_filters (Some (chosen t2)) o)) eqn:E2.
    + rewrite replaceAt_twice. reflexivity.
    + rewrite (H2 eq_refl), replaceAt_twice. reflexivity.
  - erewrite applyFilter_selected;
      [| reflexivity | apply (@getActiveObject_put c i o o1 Ha)].
    cbv zeta. rewrite H1. cbn [objects set_objects].
    destruct (applyFilters (set_filters (Some (chosen t2)) o)) eqn:E2.
    + rewrite replaceAt_twice. reflexivity.
    + rewrite (H2 eq_refl), replaceAt_twice. reflexivity.
Qed.

(** On every state, the same filter action twice gives the state and the
    effects of once, and a filter action after another one gives what it
    gives alone. *)
Theorem filter_twice_is_once (filterType other : string) (p : Panel) :
  applyFilter filterType (fst (applyFilter filterType p))
  = applyFilter filterType p
  /\ applyFilter filterType (fst (applyFilter other p))
     = applyFilter filterType p.
Proof. split; apply applyFilter_absorbs. Qed.


End Filters.



(** ** The click on the sphere *)

Section Projection.

Local Open Scope R_scope.

Lemma Fin_eq (x y : R) : x = y -> JS.Fin x = JS.Fin y.
Proof. intros ->. reflexivity. Qed.

Lemma sqrt_fin (x : R) : 0 <= x -> JS.Math_sqrt (JS.Fin x) = JS.Fin (sqrt x).
Proof.
  intros Hx. unfold JS.Math_sqrt. destruct (Rlt_dec x 0); [lra|reflexivity].
Qed.

Lemma div_zero_zero : JS.div (JS.Fin 0) (JS.Fin 0) = JS.NaN.
Proof.
  unfold JS.div, JS.signed_inf.
  destruct (Req_dec_T 0 0); [|congruence].
  destruct (Rlt_dec 0 0); [lra|reflexivity].
Qed.

Lemma atan2_zero_zero : JS.Math_atan2 (JS.Fin 0) (JS.Fin 0) = JS.Fin 0.
Proof.
  unfold JS.Math_atan2. destruct (Rlt_dec 0 0); [lra|reflexivity].
Qed.

Lemma div_fin (x y : R) :
  y <> 0 -> JS.div (JS.Fin x) (JS.Fin y) = JS.Fin (x / y).
Proof.
  intros Hy. unfold JS.div.
  destruct (Req_dec_T y 0); [contradiction|reflexivity].
Qed.

Lemma trunc_0 : JS.trunc 0 = 0.
Proof.
  unfold JS.trunc. destruct (Rle_dec 0 0); [|lra].
  replace (Int_part 0) with 0%Z; [reflexivity|].
  apply Int_part_spec. cbn. lra.
Qed.

Lemma rem_zero (y : R) : y <> 0 -> JS.rem (JS.Fin 0) (JS.Fin y) = JS.Fin 0.
Proof.
  intros Hy. unfold JS.rem. destruct (Req_dec_T y 0); [contradiction|].
  apply Fin_eq. replace (0 / y) with 0 by (field; assumption).
  rewrite trunc_0. ring.
Qed.

Lemma lt_fin (x y : R) :
  JS.lt (JS.Fin x) (JS.Fin y) = if Rlt_dec x y then true else false.
Proof. reflexivity. Qed.

(** At the centre [r] is 0 and [y / r] is 0/0: the latitude is NaN, the
    longitude 0, and the handler goes on to open the panel. *)
Lemma handleClick_centre (s : Store) :
  Layout.handleClick centre s
  = setDrawingPanel true (Some JS.NaN) (Some (num 0)) s.
Proof.
  unfold Layout.handleClick, centre, num. cbn [px py pz].
  cbn [JS.mul JS.add].
  replace (0 * 0 + 0 * 0 + 0 * 0) with 0 by ring.
  rewrite (sqrt_fin (x := 0)) by lra. rewrite sqrt_0, div_zero_zero.
  cbn [JS.Math_acos JS.mul JS.div JS.sub JS.add JS.neg].
  rewrite atan2_zero_zero. cbn [JS.mul]. unfold JS.Math_PI.
  rewrite (div_fin (0 * 180) PI_neq0).
  replace (0 * 180 / PI) with 0 by (field; apply PI_neq0).
  rewrite rem_zero by lra.
  rewrite !lt_fin.
  destruct (Rlt_dec 0 (-180)); [lra|].
  unfold JS.gt. rewrite lt_fin.
  destruct (Rlt_dec 180 0); [lra|].
  reflexivity.
Qed.

Lemma radius_centre : radius centre = num 0.
Proof.
  unfold radius, centre, num. cbn [px py pz JS.mul JS.add].
  replace (0 * 0 + 0 * 0 + 0 * 0) with 0 by ring.
  rewrite (sqrt_fin (x := 0)) by lra. now rewrite sqrt_0.
Qed.

Lemma radius_northPole : radius northPole <> num 0.
Proof.
  unfold radius, northPole, num. cbn [px py pz JS.mul JS.add].
  rewrite sqrt_fin by lra. intros H. injection H as H.
  assert (0 < sqrt (0 * 0 + 5 * 5 + 0 * 0)) by (apply sqrt_lt_R0; lra).
  lra.
Qed.

(** C6, as stated, fails: for the point at the centre, where [r] is 0, the
    handler raises nothing; it comes back with the panel open at latitude
    NaN and longitude 0. *)
Lemma centre_click_opens_panel :
  radius centre = num 0
  /\ isDrawingPanelOpen (Layout.handleClick centre initialStore) = true
  /\ currentLat (Layout.handleClick centre initialStore) = JS.NaN
  /\ currentLng (Layout.handleClick centre initialStore) = num 0.
Proof.
  split; [apply radius_centre|].
  rewrite handleClick_centre. repeat split.
Qed.

(** C6, amended.  For the point at the centre the handler, in both
    variants of the page, makes no check and fails with no error: from
    every store it opens the panel with latitude NaN (from 0/0) and
    longitude 0, the landmarks as they were. *)
Theorem centre_click_unguarded (s : Store) :
  Layout.handleClick centre s
  = {| isDrawingPanelOpen := true; currentLat := JS.NaN;
       currentLng := num 0; landmarks := landmarks s |}
  /\ Part002.handleClick centre s
     = {| isDrawingPanelOpen := true; currentLat := JS.NaN;
          currentLng := num 0; landmarks := landmarks s |}.
Proof. split; exact (handleClick_centre s). Qed.

(** C10.  For every point whose [r] is not 0, and every store, the click
    handler of part_002 and the one of layout.jsx leave the same store: in
    particular the same pair of latitude and longitude. *)
Theorem handlers_agree (point : Point) (s : Store) :
  radius point <> num 0 ->
  Part002.handleClick point s = Layout.handleClick point s
  /\ (currentLat (Part002.handleClick point s),
      currentLng (Part002.handleClick point s))
     = (currentLat (Layout.handleClick point s),
        currentLng (Layout.handleClick point s)).
Proof. intros _. split; reflexivity. Qed.

(** The two handlers are the same function: the restriction to [r <> 0]
    plays no part. *)
Remark handlers_same :
  forall point s, Part002.handleClick point s = Layout.handleClick point s.
Proof. reflexivity. Qed.

Lemma handlers_agree_witness :
  radius northPole <> num 0
  /\ Part002.handleClick northPole initialStore
     = Layout.handleClick northPole initialStore.
Proof.
  split; [apply radius_northPole|].
  apply (handlers_agree northPole initialStore radius_northPole).
Defined.

End Projection.

(** ** One round of the page *)

(** A click on the north pole opens the panel; a name, a rectangle and a
    save request send one insert; when it is answered with the stored row
    the panel is closed, the name is cleared, the canvas is disposed and
    the row is the one landmark. *)
Example save_round :
  let events :=
    [Click northPole; NameInput "Outpost-1"; AddShape rect; Save;
     SaveAnswered (Saved outpost)] in
  let (a, out) := Layout.run plainFilter plainPNG events initialApp in
  isDrawingPanelOpen (store a) = false
  /\ landmarks (store a) = LmArray [outpost]
  /\ name (panel a) = ""
  /\ option_map disposed (fabricRef (panel a)) = Some true
  /\ map pl_name (inserts out) = ["Outpost-1"]
  /\ map pl_drawing_data (inserts out) = [plainPNG newCanvas].
Proof. cbv zeta. cbn. repeat split. Qed.

(** ** Positions on the sphere *)

Section Sphere.

Local Open Scope R_scope.

Lemma mul_fin (x y : R) : JS.mul (JS.Fin x) (JS.Fin y) = JS.Fin (x * y).
Proof. reflexivity. Qed.

Lemma sub_fin (x y : R) : JS.sub (JS.Fin x) (JS.Fin y) = JS.Fin (x - y).
Proof. reflexivity. Qed.

Lemma add_fin (x y : R) : JS.add (JS.Fin x) (JS.Fin y) = JS.Fin (x + y).
Proof. reflexivity. Qed.

(** The polar angle and the azimuth of the source, for finite degrees. *)
Lemma phi_fin (a : R) :
  JS.div (JS.mul (JS.sub (num 90) (JS.Fin a)) JS.Math_PI) (num 180)
  = JS.Fin ((90 - a) * PI / 180).
Proof.
  unfold num, JS.Math_PI. rewrite sub_fin, mul_fin, div_fin by lra.
  reflexivity.
Qed.

Lemma theta_fin (b : R) :
  JS.div (JS.mul (JS.Fin b) JS.Math_PI) (num 180) = JS.Fin (b * PI / 180).
Proof.
  unfold num, JS.Math_PI. rewrite mul_fin, div_fin by lra. reflexivity.
Qed.

(** A point given by a distance, a polar angle and an azimuth is at that
    distance from the centre. *)
Lemma polar_norm (r phi theta : R) :
  0 <= r ->
  sqrt (r * sin phi * cos theta * (r * sin phi * cos theta)
        + r * cos phi * (r * cos phi)
        + r * sin phi * sin theta * (r * sin phi * sin theta)) = r.
Proof.
  intros Hr.
  replace (r * sin phi * cos theta * (r * sin phi * cos theta)
           + r * cos phi * (r * cos phi)
           + r * sin phi * sin theta * (r * sin phi * sin theta))
    with (r * r * ((sin phi)² * ((sin theta)² + (cos theta)²) + (cos phi)²))
    by (unfold Rsqr; ring).
  rewrite (sin2_cos2 theta), Rmult_1_r, (sin2_cos2 phi), Rmult_1_r.
  apply sqrt_square, Hr.
Qed.

Lemma radius_polar (r phi theta : R) :
  0 <= r ->
  radius {| px := JS.Fin (r * sin phi * cos theta);
            py := JS.Fin (r * cos phi);
            pz := JS.Fin (r * sin phi * sin theta) |} = JS.Fin r.
Proof.
  intros Hr. unfold radius. cbn [px py pz]. rewrite !mul_fin, !add_fin.
  rewrite sqrt_fin.
  - now rewrite polar_norm.
  - nra.
Qed.

Lemma sprite_position (lm : StoredLandmark) (a b : R) :
  lm_lat lm = JS.Fin a -> lm_lng lm = JS.Fin b ->
  Scene.position (Scene.sprite lm)
  = {| px := JS.Fin (515 / 100 * sin ((90 - a) * PI / 180)
                     * cos (b * PI / 180));
       py := JS.Fin (515 / 100 * cos ((90 - a) * PI / 180));
       pz := JS.Fin (515 / 100 * sin ((90 - a) * PI / 180)
                     * sin (b * PI / 180)) |}.
Proof.
  intros Ha Hb. unfold Scene.sprite. cbn [Scene.position].
  rewrite Ha, Hb, phi_fin, theta_fin. reflexivity.
Qed.

(** X1.  A landmark with finite latitude and longitude gets its sprite at
    distance 5.15 from the centre, whatever the two angles are. *)
Theorem sprite_on_sphere (lm : StoredLandmark) (a b : R) :
  lm_lat lm = JS.Fin a -> lm_lng lm = JS.Fin b ->
  radius (Scene.position (Scene.sprite lm)) = dec 515 100.
Proof.
  intros Ha Hb. rewrite (sprite_position lm Ha Hb).
  rewrite radius_polar by lra. reflexivity.
Qed.

Lemma sprite_on_sphere_witness :
  lm_lat outpost = JS.Fin 12 /\ lm_lng outpost = JS.Fin (-56)
  /\ radius (Scene.position (Scene.sprite outpost)) = dec 515 100.
Proof.
  split; [reflexivity|]. split; [reflexivity|].
  apply (sprite_on_sphere outpost (a := 12) (b := -56)); reflexivity.
Defined.

Lemma gridPoint_radius (lat lon : Z) :
  radius (Scene.gridPoint lat lon) = num 5.
Proof.
  unfold Scene.gridPoint.
  change (num lat) with (JS.Fin (IZR lat)).
  change (num lon) with (JS.Fin (IZR lon)).
  rewrite phi_fin, theta_fin. unfold num. cbn [Math_sin Math_cos].
  rewrite !mul_fin. apply radius_polar. lra.
Qed.

Lemma Forall_arrayFromMap (A : Type) (P : A -> Prop) (n : nat) (f : Z -> A) :
  (forall i, P (f i)) -> Forall P (arrayFromMap n f).
Proof.
  intros H. unfold arrayFromMap. apply Forall_forall. intros x Hx.
  apply in_map_iff in Hx. destruct Hx as (i & <- & _). apply H.
Qed.

Lemma Forall_map_all (A B : Type) (P : B -> Prop) (f : A -> B)
    (l : list A) : (forall x, P (f x)) -> Forall P (map f l).
Proof.
  intros H. apply Forall_forall. intros y Hy.
  apply in_map_iff in Hy. destruct Hy as (x & <- & _). apply H.
Qed.

(** X2.  The grid has 12 lines of longitude of 33 points, 5 lines of
    latitude of 73 points and a ring of 73 points, and every one of these
    points is at distance 5 from the centre: the lines lie on the sphere
    that takes the clicks. *)
Theorem grid_on_sphere :
  map (@List.length Point) Scene.longitudeLines = repeat 33%nat 12
  /\ map (@List.length Point) Scene.latitudeLines = repeat 73%nat 5
  /\ List.length Scene.ring = 73%nat
  /\ Forall (Forall (fun p => radius p = num 5)) Scene.longitudeLines
  /\ Forall (Forall (fun p => radius p = num 5)) Scene.latitudeLines
  /\ Forall (fun p => radius p = num 5) Scene.ring.
Proof.
  split; [reflexivity|]. split; [reflexivity|]. split; [reflexivity|].
  split; [|split].
  - apply Forall_arrayFromMap. intros i. apply Forall_map_all.
    intros lat. apply gridPoint_radius.
  - apply Forall_arrayFromMap. intros j. apply Forall_map_all.
    intros lon. apply gridPoint_radius.
  - apply Forall_arrayFromMap. intros k. unfold num, JS.Math_PI.
    rewrite !mul_fin, div_fin by lra. cbn [Math_sin Math_cos].
    rewrite !mul_fin.
    set (t := IZR k * 5 * PI / 180).
    unfold radius. cbn [px py pz]. rewrite !mul_fin, !add_fin.
    rewrite sqrt_fin by nra. apply Fin_eq.
    replace (5 * cos t * (5 * cos t) + 0 * 0 + 5 * sin t * (5 * sin t))
      with (5 * 5 * ((sin t)² + (cos t)²)) by (unfold Rsqr; ring).
    rewrite sin2_cos2, Rmult_1_r. apply sqrt_square. lra.
Qed.

End Sphere.

(** ** From a sprite back to its coordinates *)

Section RoundTrip.

Local Open Scope R_scope.

Lemma acos_fin (x : R) :
  -1 <= x <= 1 -> JS.Math_acos (JS.Fin x) = JS.Fin (acos x).
Proof.
  intros [H1 H2]. unfold JS.Math_acos.
  destruct (Rlt_dec x (-1)); [lra|]. destruct (Rlt_dec 1 x); [lra|].
  reflexivity.
Qed.

Lemma trunc_small (q : R) : -1 < q < 1 -> JS.trunc q = 0.
Proof.
  intros [H1 H2]. unfold JS.trunc. destruct (Rle_dec 0 q).
  - replace (Int_part q) with 0%Z; [reflexivity|].
    apply Int_part_spec. cbn. lra.
  - replace (Int_part (- q)) with 0%Z; [cbn; lra|].
    apply Int_part_spec. cbn. lra.
Qed.

(** A value strictly between -360 and 360 is its own remainder. *)
Lemma rem_small (v : R) :
  -360 < v < 360 -> JS.rem (JS.Fin v) (num 360) = JS.Fin v.
Proof.
  intros Hv. unfold num, JS.rem. destruct (Req_dec_T 360 0); [lra|].
  apply Fin_eq. rewrite trunc_small; [ring|]. lra.
Qed.

(** [Math.atan2] returns the azimuth of a point of the plane given by a
    positive distance and an azimuth in (-PI, PI]. *)
Lemma atan2_polar (k t : R) :
  0 < k -> - PI < t <= PI ->
  JS.Math_atan2 (JS.Fin (k * sin t)) (JS.Fin (k * cos t)) = JS.Fin t.
Proof.
  intros Hk [Hlo Hhi]. pose proof PI_RGT_0 as Hpi.
  assert (Htan : forall c, cos t = c -> c <> 0 ->
                           k * sin t / (k * cos t) = tan t).
  { intros c Hc Hne. unfold tan. rewrite Hc. field. lra. }
  unfold JS.Math_atan2.
  destruct (Rlt_dec (- (PI / 2)) t) as [H1|H1].
  - destruct (Rlt_dec t (PI / 2)) as [H2|H2].
    + (* the right half plane *)
      pose proof (cos_gt_0 t H1 H2) as Hc.
      destruct (Rlt_dec 0 (k * cos t)); [|nra].
      apply Fin_eq. rewrite (Htan (cos t)) by lra.
      apply atan_tan. lra.
    + destruct (Req_dec_T t (PI / 2)) as [->|Hne].
      * rewrite cos_PI2, sin_PI2.
        destruct (Rlt_dec 0 (k * 0)); [lra|].
        destruct (Rlt_dec (k * 0) 0); [lra|].
        destruct (Rlt_dec 0 (k * 1)); [reflexivity|lra].
      * (* the upper left quarter *)
        assert (Hc : cos t < 0) by (apply cos_lt_0; lra).
        assert (Hs : 0 <= sin t) by (apply sin_ge_0; lra).
        destruct (Rlt_dec 0 (k * cos t)); [nra|].
        destruct (Rlt_dec (k * cos t) 0); [|nra].
        destruct (Rlt_dec (k * sin t) 0); [nra|].
        apply Fin_eq. rewrite (Htan (cos t)) by lra.
        replace (tan t) with (tan (t - PI)).
        -- rewrite atan_tan by lra. ring.
        -- unfold tan. rewrite sin_minus, cos_minus, sin_PI, cos_PI.
           field. lra.
  - destruct (Req_dec_T t (- (PI / 2))) as [->|Hne].
    + rewrite cos_neg, sin_neg, cos_PI2, sin_PI2.
      destruct (Rlt_dec 0 (k * 0)); [lra|].
      destruct (Rlt_dec (k * 0) 0); [lra|].
      destruct (Rlt_dec 0 (k * - (1))); [lra|].
      destruct (Rlt_dec (k * - (1)) 0); [reflexivity|lra].
    + (* the lower left quarter *)
      assert (Hc : cos t < 0).
      { rewrite <- cos_neg. apply cos_lt_0; lra. }
      assert (Hs : sin t < 0).
      { assert (0 < sin (- t)) by (apply sin_gt_0; lra).
        rewrite sin_neg in *. lra. }
      destruct (Rlt_dec 0 (k * cos t)); [nra|].
      destruct (Rlt_dec (k * cos t) 0); [|nra].
      destruct (Rlt_dec (k * sin t) 0); [|nra].
      apply Fin_eq. rewrite (Htan (cos t)) by lra.
      replace (tan t) with (tan (t + PI)).
      * rewrite atan_tan by lra. ring.
      * unfold tan. rewrite neg_sin, neg_cos. field. lra.
Qed.

(** The longitude part of [handleClick] on finite degrees in
    (-180, 180]: the remainder and the two corrections change nothing. *)
Lemma normalise_in_range (b : R) :
  -180 < b <= 180 ->
  (let lng := JS.rem (JS.div (JS.mul (JS.Fin (b * PI / 180)) (num 180))
                        JS.Math_PI) (num 360) in
   let lng := if JS.lt lng (num (-180)) then JS.add lng (num 360)
              else lng in
   if JS.gt lng (num 180) then JS.sub lng (num 360) else lng)
  = JS.Fin b.
Proof.
  intros Hb. pose proof PI_RGT_0 as Hpi. cbv zeta.
  unfold JS.Math_PI. replace (num 180) with (JS.Fin 180) by reflexivity.
  rewrite mul_fin, div_fin by lra.
  replace (b * PI / 180 * 180 / PI) with b by (field; lra).
  rewrite rem_small by lra.
  unfold JS.gt, num. rewrite !lt_fin.
  destruct (Rlt_dec b (-180)); [lra|]. rewrite lt_fin.
  destruct (Rlt_dec 180 b); [lra|]. reflexivity.
Qed.

(** X3.  In exact arithmetic the click handler undoes the placement of a
    sprite: for a landmark with latitude strictly between -90 and 90 and
    longitude in (-180, 180], a click on the position of its sprite opens
    the panel at that latitude and longitude. *)
Theorem click_on_sprite (lm : StoredLandmark) (a b : R) (s : Store) :
  lm_lat lm = JS.Fin a -> lm_lng lm = JS.Fin b ->
  -90 < a < 90 -> -180 < b <= 180 ->
  Layout.handleClick (Scene.position (Scene.sprite lm)) s
  = setDrawingPanel true (Some (lm_lat lm)) (Some (lm_lng lm)) s.
Proof.
  intros Ha Hb Hlat Hlng. pose proof PI_RGT_0 as Hpi.
  rewrite (sprite_position lm Ha Hb), Ha, Hb.
  set (phi := (90 - a) * PI / 180). set (theta := b * PI / 180).
  assert (Hphi : 0 < phi < PI).
  { unfold phi. split.
    - apply Rmult_lt_0_compat; [|lra]. apply Rmult_lt_0_compat; lra.
    - apply Rmult_lt_reg_r with (180 / PI).
      + apply Rdiv_lt_0_compat; lra.
      + replace ((90 - a) * PI / 180 * (180 / PI)) with (90 - a)
          by (field; lra).
        replace (PI * (180 / PI)) with 180 by (field; lra). lra. }
  assert (Htheta : - PI < theta <= PI).
  { unfold theta. split.
    - apply Rmult_lt_reg_r with (180 / PI).
      + apply Rdiv_lt_0_compat; lra.
      + replace (b * PI / 180 * (180 / PI)) with b by (field; lra).
        replace (- PI * (180 / PI)) with (-180) by (field; lra). lra.
    - apply Rmult_le_reg_r with (180 / PI).
      + apply Rdiv_lt_0_compat; lra.
      + replace (b * PI / 180 * (180 / PI)) with b by (field; lra).
        replace (PI * (180 / PI)) with 180 by (field; lra). lra. }
  pose proof (sin_gt_0 phi (proj1 Hphi) (proj2 Hphi)) as Hsin.
  unfold Layout.handleClick, setDrawingPanel. cbv zeta. cbn [px py pz].
  f_equal; f_equal.
  - (* the latitude *)
    rewrite !mul_fin, !add_fin, sqrt_fin by nra.
    rewrite polar_norm by lra.
    rewrite div_fin by lra.
    replace (515 / 100 * cos phi / (515 / 100)) with (cos phi)
      by (field; lra).
    rewrite acos_fin by apply COS_bound.
    rewrite acos_cos by lra.
    unfold num, JS.Math_PI. rewrite mul_fin, div_fin, sub_fin by lra.
    apply Fin_eq. unfold phi. field. lra.
  - (* the longitude *)
    rewrite atan2_polar by (try lra; nra).
    exact (normalise_in_range Hlng).
Qed.

Lemma click_on_sprite_witness :
  lm_lat outpost = JS.Fin 12 /\ lm_lng outpost = JS.Fin (-56)
  /\ -90 < 12 < 90 /\ -180 < -56 <= 180
  /\ Layout.handleClick (Scene.position (Scene.sprite outpost)) initialStore
     = setDrawingPanel true (Some (lm_lat outpost)) (Some (lm_lng outpost))
         initialStore.
Proof.
  split; [reflexivity|]. split; [reflexivity|].
  split; [lra|]. split; [lra|].
  apply (click_on_sprite outpost (a := 12) (b := -56) initialStore);
    (reflexivity || lra).
Defined.

End RoundTrip.

(** ** The zoom factor *)

Section Zoom.

Local Open Scope R_scope.

Lemma zoomStep_bounded (v : R) (c : Scene.ZoomClick) :
  1 / 2 <= v <= 3 ->
  exists v', Scene.zoomStep (JS.Fin v) c = JS.Fin v' /\ 1 / 2 <= v' <= 3.
Proof.
  intros [Hlo Hhi]. destruct c; (eexists; split; [reflexivity|]); split.
  - apply Rmin_glb; lra.
  - apply Rmin_r.
  - eapply Rle_trans; [|apply Rmax_r]. lra.
  - apply Rmax_lub; lra.
Qed.

(** X5.  Starting from 1, the zoom factor stays a number between 0.5 and
    3 under every sequence of clicks on the two zoom buttons. *)
Theorem zoom_bounded (clicks : list Scene.ZoomClick) :
  exists v,
    fold_left Scene.zoomStep clicks Scene.initialZoom = JS.Fin v
    /\ 1 / 2 <= v <= 3.
Proof.
  assert (H : forall v, 1 / 2 <= v <= 3 ->
                        exists v', fold_left Scene.zoomStep clicks (JS.Fin v)
                                   = JS.Fin v' /\ 1 / 2 <= v' <= 3).
  { induction clicks as [|c cs IH]; intros v Hv.
    - exists v. split; [reflexivity|exact Hv].
    - cbn [fold_left].
      destruct (zoomStep_bounded c Hv) as (v1 & -> & Hv1).
      apply IH, Hv1. }
  apply (H 1). lra.
Qed.

End Zoom.

(** ** The brushes *)

Section BrushProperties.

Import Brushes.

(** X6.  After the brush effect the brush in use has the width of the
    settings and their colour, or the background colour while erasing,
    whichever of the three brushes it is; with the spray brush selected
    its density is 20. *)
Theorem updateBrush_current (st : Settings) (cb : CanvasBrushes) :
  br_color (current (updateBrush st cb))
  = (if isErasing st then "#1a1a1a" else Brushes.color st)
  /\ br_width (current (updateBrush st cb)) = brushSize st
  /\ (brushType st = "spray" ->
      br_density (current (updateBrush st cb)) = Some 20%Z).
Proof.
  unfold updateBrush, current.
  destruct (String.eqb (brushType st) "spray") eqn:Es.
  - repeat split.
  - destruct (String.eqb (brushType st) "calligraphic").
    + repeat split. intros H. rewrite H in Es. discriminate.
    + destruct (freeDrawingBrush cb); repeat split;
        intros H; rewrite H in Es; discriminate.
Qed.

Lemma updateBrush_ref (st : Settings) (cb : CanvasBrushes) :
  freeDrawingBrush (updateBrush st cb)
  = if String.eqb (brushType st) "spray" then Spray
    else if String.eqb (brushType st) "calligraphic" then Pattern
    else freeDrawingBrush cb.
Proof.
  unfold updateBrush.
  destruct (String.eqb (brushType st) "spray");
    [reflexivity|].
  destruct (String.eqb (brushType st) "calligraphic"); [reflexivity|].
  destruct (freeDrawingBrush cb); reflexivity.
Qed.

Lemma updateBrush_keeps_off_pencil (st : Settings) (cb : CanvasBrushes) :
  freeDrawingBrush cb <> Pencil ->
  freeDrawingBrush (updateBrush st cb) <> Pencil.
Proof.
  intros H. rewrite updateBrush_ref.
  destruct (String.eqb (brushType st) "spray"); [discriminate|].
  destruct (String.eqb (brushType st) "calligraphic"); [discriminate|].
  exact H.
Qed.

(** X7.  The pencil brush does not come back: once the spray or the
    calligraphic brush has been selected, the canvas never uses the
    pencil brush again, whatever settings follow (selecting "pencil"
    keeps the brush in use). *)
Theorem pencil_not_restored (st : Settings) (later : list Settings)
    (cb : CanvasBrushes) :
  brushType st = "spray" \/ brushType st = "calligraphic" ->
  freeDrawingBrush
    (fold_left (fun cb st' => updateBrush st' cb) later (updateBrush st cb))
  <> Pencil.
Proof.
  intros Hst.
  assert (H0 : freeDrawingBrush (updateBrush st cb) <> Pencil).
  { rewrite updateBrush_ref. destruct Hst as [-> | ->]; discriminate. }
  revert H0. generalize (updateBrush st cb).
  induction later as [|st' sts IH]; intros cb0 H0; [exact H0|].
  cbn [fold_left]. apply IH, updateBrush_keeps_off_pencil, H0.
Qed.

Lemma pencil_not_restored_witness :
  (brushType spraySettings = "spray"
   \/ brushType spraySettings = "calligraphic")
  /\ freeDrawingBrush
       (fold_left (fun cb st' => updateBrush st' cb) [initialSettings]
          (updateBrush spraySettings (createBrushes initialSettings)))
     <> Pencil.
Proof.
  split; [left; reflexivity|].
  apply (pencil_not_restored spraySettings [initialSettings]
           (createBrushes initialSettings)).
  left. reflexivity.
Defined.

Lemma updateBrush_current_witness :
  brushType spraySettings = "spray"
  /\ br_density
       (current (updateBrush spraySettings (createBrushes initialSettings)))
     = Some 20%Z.
Proof.
  split; [reflexivity|].
  apply (updateBrush_current spraySettings (createBrushes initialSettings)).
  reflexivity.
Defined.

End BrushProperties.

(** ** Invariants of the page *)

Section Invariants.

Variable runFilter : Filter -> Bitmap -> Bitmap.
Variable toDataURL : Canvas -> string.

Local Abbreviation step := (Layout.step runFilter toDataURL).
Local Abbreviation run := (Layout.run runFilter toDataURL).

Local Open Scope Z_scope.

(** What holds at the start and after every event holds after every
    sequence of events. *)
Lemma run_invariant (P : App -> Prop) :
  (forall e a, P a -> P (fst (step e a))) ->
  forall es a, P a -> P (fst (run es a)).
Proof.
  intros Hstep es. induction es as [|e es IH]; intros a Ha; [exact Ha|].
  rewrite run_cons. cbn [fst]. apply IH, Hstep, Ha.
Qed.

(** *** The store under the events *)

Lemma store_rerender (b : bool) (a : App) :
  store (rerender b a) = store a.
Proof.
  unfold rerender. destruct b, (isDrawingPanelOpen (store a)); reflexivity.
Qed.

Lemma store_setStore (s : Store) (a : App) : store (setStore s a) = s.
Proof. unfold setStore. now rewrite store_rerender. Qed.

Lemma panel_setStore_same (s : Store) (a : App) :
  isDrawingPanelOpen s = isDrawingPanelOpen (store a) ->
  panel (setStore s a) = panel a.
Proof.
  intros H. unfold setStore, rerender. cbn [store]. rewrite H.
  destruct (isDrawingPanelOpen (store a)); reflexivity.
Qed.

Lemma fabricRef_saveHistory (p : Panel) :
  fabricRef (saveHistory p) = fabricRef p.
Proof.
  unfold saveHistory. destruct (fabricRef p) eqn:E; [|exact E].
  cbn. exact E.
Qed.

End Invariants.

(** ** More on the history *)

Section HistoryInvariants.

Variable runFilter : Filter -> Bitmap -> Bitmap.
Variable toDataURL : Canvas -> string.

Local Abbreviation step := (Layout.step runFilter toDataURL).
Local Abbreviation run := (Layout.run runFilter toDataURL).

Local Open Scope Z_scope.

Lemma cursorFloor_commit (ch : CanvasChange) (p : Panel) :
  cursorFloor p -> cursorFloor (commit ch p).
Proof.
  unfold cursorFloor, commit.
  destruct (fabricRef p) as [c|] eqn:E; [|now rewrite E].
  intros [Hh Hi]. rewrite fabricRef_saveHistory. cbn [fabricRef set_fabricRef].
  set (c' := set_objects (changeObjects ch (objects c)) c).
  destruct (saveHistory_eq (set_fabricRef (Some c') p) (c := c') eq_refl)
    as (H1 & H2 & _).
  rewrite H1, H2. cbn. split; [|lia].
  intros H. apply app_eq_nil in H. destruct H as [_ H]. discriminate.
Qed.

Lemma cursorFloor_undo (p : Panel) : cursorFloor p -> cursorFloor (undo p).
Proof.
  unfold cursorFloor, undo.
  destruct (fabricRef p) as [c|] eqn:E; [|now rewrite E].
  intros [Hh Hi].
  destruct (historyIndex p <=? 0) eqn:Ez; [now rewrite E|].
  apply Z.leb_gt in Ez.
  destruct (JS.index (history p) (historyIndex p - 1)); cbn.
  - split; [exact Hh|lia].
  - split; assumption.
Qed.

Lemma cursorFloor_redo (p : Panel) : cursorFloor p -> cursorFloor (redo p).
Proof.
  unfold cursorFloor, redo.
  destruct (fabricRef p) as [c|] eqn:E; [|now rewrite E].
  intros [Hh Hi].
  destruct (historyIndex p >=? Z.of_nat (List.length (history p)) - 1);
    [now rewrite E|].
  destruct (JS.index (history p) (historyIndex p + 1)); cbn.
  - split; [exact Hh|lia].
  - split; assumption.
Qed.

Lemma cursorFloor_applyFilter (t : string) (p : Panel) :
  cursorFloor p -> cursorFloor (fst (Layout.applyFilter runFilter t p)).
Proof.
  destruct (fabricRef p) as [c|] eqn:Hc.
  2:{ unfold Layout.applyFilter. now rewrite Hc. }
  destruct (getActiveObject c) as [[i o]|] eqn:Ha.
  2:{ unfold Layout.applyFilter. now rewrite Hc, Ha. }
  rewrite (@applyFilter_selected runFilter t p c i o Hc Ha).
  unfold cursorFloor. rewrite Hc.
  destruct (Layout.applyFilters runFilter _); cbn; trivial.
Qed.

Lemma cursorFloor_setStore (s : Store) (a : App) :
  cursorFloor (panel a) -> cursorFloor (panel (setStore s a)).
Proof.
  intros H. unfold setStore, rerender. cbn [store].
  destruct (isDrawingPanelOpen (store a)), (isDrawingPanelOpen s);
    cbn [panel]; try exact H.
  - unfold cursorFloor, closeEffect in *. cbn.
    destruct (fabricRef (panel a)); exact H.
  - unfold cursorFloor. cbn. split; [discriminate|lia].
Qed.

Lemma cursorFloor_step (e : Event) (a : App) :
  cursorFloor (panel a) -> cursorFloor (panel (fst (step e a))).
Proof.
  intros H. destruct e; cbn [Layout.step quiet fst onPanel store panel];
    try (apply cursorFloor_setStore; exact H);
    try (unfold addShape, addText, imageLoaded;
         apply cursorFloor_commit; exact H);
    try exact H.
  - unfold cursorFloor in *. cbn.
    destruct (fabricRef (panel a)); exact H.
  - apply cursorFloor_undo, H.
  - apply cursorFloor_redo, H.
  - pose proof (@cursorFloor_applyFilter filterType (panel a) H) as L.
    destruct (Layout.applyFilter runFilter filterType (panel a)) as [p out].
    exact L.
  - now rewrite handleSave_state.
  - unfold handleSave_resume. destruct res as [m|row]; [exact H|].
    destruct (addLandmark row (store a)) as [s|] eqn:Ea; [|exact H].
    cbn [fst onPanel store panel].
    assert (H2 : cursorFloor
                   (panel (setStore
                             (setDrawingPanel false None None
                                (store (setStore s a)))
                             (setStore s a)))).
    { apply cursorFloor_setStore, cursorFloor_setStore, H. }
    unfold cursorFloor in *. cbn.
    destruct (fabricRef (panel (setStore _ (setStore s a)))); exact H2.
Qed.

(** X9.  The lower end of the history invariant holds: after every
    sequence of events of the page, either the panel was never opened (no
    canvas, empty history, cursor -1) or there is a canvas, the history
    is not empty and the cursor is at least 0. *)
Theorem cursor_never_negative (es : list Event) :
  let p := panel (fst (run es initialApp)) in
  match fabricRef p with
  | None => history p = [] /\ historyIndex p = -1
  | Some _ => history p <> [] /\ 0 <= historyIndex p
  end.
Proof.
  cbv zeta.
  apply (@run_invariant runFilter toDataURL
           (fun a => cursorFloor (panel a))).
  - apply cursorFloor_step.
  - split; reflexivity.
Qed.

(** *** The first session *)

Lemma oneSnapshot_saveHistory (p : Panel) :
  oneSnapshot p -> oneSnapshot (saveHistory p).
Proof.
  intros ([c Hc] & Hs & Hl & Hi).
  destruct (saveHistory_eq p Hc) as (H1 & H2 & H3 & H4).
  unfold oneSnapshot. rewrite H1, H2, H3, H4, Hs. cbn.
  rewrite slice0_0. cbn. repeat split; [eexists; reflexivity|lia].
Qed.

Lemma oneSnapshot_commit (ch : CanvasChange) (p : Panel) :
  oneSnapshot p -> oneSnapshot (commit ch p).
Proof.
  intros H. pose proof H as ([c Hc] & _). unfold commit. rewrite Hc.
  apply oneSnapshot_saveHistory.
  destruct H as (_ & Hs & Hl & Hi).
  repeat split; try assumption. eexists. reflexivity.
Qed.

Lemma oneSnapshot_redo (p : Panel) : oneSnapshot p -> redo p = p.
Proof.
  intros ([c Hc] & Hs & Hl & Hi). unfold redo. rewrite Hc, Hl. cbn.
  destruct (historyIndex p >=? 0) eqn:E; [reflexivity|].
  rewrite Z.geb_leb in E. apply Z.leb_gt in E. lia.
Qed.

Lemma oneSnapshot_undo (p : Panel) : oneSnapshot p -> oneSnapshot (undo p).
Proof.
  intros ([c Hc] & Hs & Hl & Hi). unfold undo. rewrite Hc.
  destruct (historyIndex p <=? 0) eqn:Ez.
  { repeat split; try assumption. exists c. exact Hc. }
  apply Z.leb_gt in Ez.
  destruct (JS.index (history p) (historyIndex p - 1)); cbn;
    (repeat split; [eexists; reflexivity | assumption | assumption | cbn; lia]).
Qed.

Lemma oneSnapshot_op (p : Panel) (o : HistoryOp) :
  oneSnapshot p -> oneSnapshot (historyOp p o).
Proof.
  intros H. destruct o; cbn.
  - apply oneSnapshot_commit, H.
  - apply oneSnapshot_saveHistory, H.
  - destruct H as ([c0 Hc] & Hs & Hl & Hi). rewrite Hc.
    repeat split; try assumption. eexists. reflexivity.
  - apply oneSnapshot_undo, H.
  - now rewrite (oneSnapshot_redo H).
Qed.

Lemma index_past_single (A : Type) (l : list A) (i : Z) :
  List.length l = 1%nat -> i <> 0 -> JS.index l i = None.
Proof.
  intros Hl Hi. unfold JS.index. destruct (i <? 0) eqn:E; [reflexivity|].
  apply Z.ltb_ge in E. apply nth_error_None. lia.
Qed.

(** X10.  In the first session of the panel the history never holds more
    than one snapshot: after every sequence of committed changes, further
    firings of [saveHistory], changes of the content of the canvas,
    undos and redos, the history has exactly one entry and the cursor is
    at least 0; so redo does nothing, and undo has nothing to load unless
    the cursor is 1. *)
Theorem first_session_one_snapshot (p0 : Panel) (ops : list HistoryOp) :
  historyIndex p0 = -1 ->
  let p := fold_left historyOp ops (openEffect p0) in
  List.length (history p) = 1%nat
  /\ 0 <= historyIndex p
  /\ redo p = p
  /\ (historyIndex p <> 1 ->
      JS.index (history p) (historyIndex p - 1) = None).
Proof.
  intros H0. cbv zeta.
  assert (H : oneSnapshot (fold_left historyOp ops (openEffect p0))).
  { assert (Hs : oneSnapshot (openEffect p0)).
    { repeat split; cbn; [eexists; reflexivity | exact H0 | lia]. }
    revert Hs. generalize (openEffect p0).
    induction ops as [|o ops IH]; intros p Hp; [exact Hp|].
    cbn [fold_left]. apply IH, oneSnapshot_op, Hp. }
  pose proof (oneSnapshot_redo H) as Hredo.
  destruct H as (_ & _ & Hl & Hi).
  split; [exact Hl|]. split; [exact Hi|]. split; [exact Hredo|].
  intros Hne. apply index_past_single; [exact Hl|lia].
Qed.

Lemma first_session_one_snapshot_witness :
  historyIndex initialPanel = -1
  /\ redo (fold_left historyOp
             [OpCommit (ObjectAdded rectangle); OpCommit (ObjectRemoved 0);
              OpContent (set_active None newCanvas); OpUndo]
             (openEffect initialPanel))
     = fold_left historyOp
         [OpCommit (ObjectAdded rectangle); OpCommit (ObjectRemoved 0);
          OpContent (set_active None newCanvas); OpUndo]
         (openEffect initialPanel).
Proof.
  split; [reflexivity|].
  apply (first_session_one_snapshot initialPanel
           [OpCommit (ObjectAdded rectangle); OpCommit (ObjectRemoved 0);
            OpContent (set_active None newCanvas); OpUndo]).
  reflexivity.
Defined.

End HistoryInvariants.

(** ** The length of the history *)

Section HistoryBound.

Variable runFilter : Filter -> Bitmap -> Bitmap.
Variable toDataURL : Canvas -> string.

Local Abbreviation step := (Layout.step runFilter toDataURL).
Local Abbreviation run := (Layout.run runFilter toDataURL).

Local Open Scope Z_scope.

Lemma length_slice0 (A : Type) (l : list A) (e : Z) :
  0 <= e -> (List.length (JS.slice0 l e) <= Z.to_nat e)%nat.
Proof.
  intros He. unfold JS.slice0.
  destruct (e <? 0) eqn:E; [apply Z.ltb_lt in E; lia|].
  rewrite length_firstn. lia.
Qed.

Lemma cutBound_commit (ch : CanvasChange) (p : Panel) :
  cutBound p -> cutBound (commit ch p).
Proof.
  intros (Hc & Hi & Hl). unfold commit.
  destruct (fabricRef p) as [c|] eqn:E; [|repeat split; assumption].
  set (c' := set_objects (changeObjects ch (objects c)) c).
  destruct (saveHistory_eq (set_fabricRef (Some c') p) (c := c') eq_refl)
    as (H1 & H2 & H3 & _).
  unfold cutBound. rewrite H1, H2, H3. cbn [saveHistory_historyIndex
    set_fabricRef history historyIndex].
  split; [exact Hc|]. split; [lia|].
  rewrite length_app. cbn [List.length].
  pose proof (@length_slice0 _ (history p) (saveHistory_historyIndex p + 1)).
  lia.
Qed.

Lemma cutBound_undo (p : Panel) : cutBound p -> cutBound (undo p).
Proof.
  intros (Hc & Hi & Hl). unfold undo.
  destruct (fabricRef p) as [c|]; [|repeat split; assumption].
  destruct (historyIndex p <=? 0) eqn:Ez; [repeat split; assumption|].
  apply Z.leb_gt in Ez.
  destruct (JS.index (history p) (historyIndex p - 1)); cbn;
    unfold cutBound; cbn; repeat split; try assumption; lia.
Qed.

Lemma cutBound_redo (p : Panel) : cutBound p -> cutBound (redo p).
Proof.
  intros (Hc & Hi & Hl). unfold redo.
  destruct (fabricRef p) as [c|]; [|repeat split; assumption].
  destruct (historyIndex p >=? Z.of_nat (List.length (history p)) - 1);
    [repeat split; assumption|].
  destruct (JS.index (history p) (historyIndex p + 1)); cbn;
    unfold cutBound; cbn; repeat split; try assumption; lia.
Qed.

Lemma cutBound_applyFilter (t : string) (p : Panel) :
  cutBound p -> cutBound (fst (Layout.applyFilter runFilter t p)).
Proof.
  intros H.
  destruct (fabricRef p) as [c|] eqn:Hc.
  2:{ unfold Layout.applyFilter. now rewrite Hc. }
  destruct (getActiveObject c) as [[i o]|] eqn:Ha.
  2:{ unfold Layout.applyFilter. now rewrite Hc, Ha. }
  rewrite (@applyFilter_selected runFilter t p c i o Hc Ha).
  destruct (Layout.applyFilters runFilter _); exact H.
Qed.

Lemma cutBound_setStore (s : Store) (a : App) :
  cutBound (panel a) -> cutBound (panel (setStore s a)).
Proof.
  intros H. unfold setStore, rerender. cbn [store].
  destruct (isDrawingPanelOpen (store a)), (isDrawingPanelOpen s);
    cbn [panel]; try exact H.
  destruct H as (Hc & Hi & Hl). unfold cutBound. cbn. repeat split; lia.
Qed.

Lemma cutBound_step (e : Event) (a : App) :
  cutBound (panel a) -> cutBound (panel (fst (step e a))).
Proof.
  intros H. destruct e; cbn [Layout.step quiet fst onPanel store panel];
    try (apply cutBound_setStore; exact H);
    try (unfold addShape, addText, imageLoaded;
         apply cutBound_commit; exact H);
    try exact H.
  - apply cutBound_undo, H.
  - apply cutBound_redo, H.
  - pose proof (@cutBound_applyFilter filterType (panel a) H) as L.
    destruct (Layout.applyFilter runFilter filterType (panel a)) as [p out].
    exact L.
  - now rewrite handleSave_state.
  - unfold handleSave_resume. destruct res as [m|row]; [exact H|].
    destruct (addLandmark row (store a)) as [s|] eqn:Ea; [|exact H].
    cbn [fst onPanel store panel].
    apply (@cutBound_setStore _ (setStore s a)), cutBound_setStore, H.
Qed.

(** X11.  The history is capped by the stale cut: after every sequence of
    events of the page the history holds at most k + 2 snapshots, where
    k is the cursor the handler [saveHistory] captured when the panel
    was opened (-1 in the first session, so one snapshot); the cursor
    itself is not capped. *)
Theorem history_capped (es : list Event) :
  let p := panel (fst (run es initialApp)) in
  -1 <= saveHistory_historyIndex p
  /\ Z.of_nat (List.length (history p)) <= saveHistory_historyIndex p + 2.
Proof.
  cbv zeta.
  assert (H : cutBound (panel (fst (run es initialApp)))).
  { apply (@run_invariant runFilter toDataURL
             (fun a => cutBound (panel a))).
    - apply cutBound_step.
    - unfold cutBound. cbn. repeat split; lia. }
  destruct H as (Hc & _ & Hl). split; [exact Hc|]. lia.
Qed.

End HistoryBound.

(** ** The landmark collection under the events *)

Section Collection.

Variable runFilter : Filter -> Bitmap -> Bitmap.
Variable toDataURL : Canvas -> string.

Local Abbreviation step := (Layout.step runFilter toDataURL).
Local Abbreviation run := (Layout.run runFilter toDataURL).

Lemma landmarks_setDrawingPanel (o : bool) (lat lng : option JS.number)
    (s : Store) : landmarks (setDrawingPanel o lat lng s) = landmarks s.
Proof. reflexivity. Qed.

Lemma setStore_same_flag (s : Store) (a : App) :
  isDrawingPanelOpen s = isDrawingPanelOpen (store a) ->
  setStore s a = {| store := s; panel := panel a |}.
Proof.
  intros H. unfold setStore, rerender. cbn [store]. rewrite H.
  destruct (isDrawingPanelOpen (store a)); reflexivity.
Qed.

(** What one event does to the collection. *)
Lemma landmarks_step (e : Event) (a : App) (rows : list StoredLandmark) :
  landmarks (store a) = LmArray rows ->
  landmarks (store (fst (step e a)))
  = match e with
    | SaveAnswered (Saved row) => LmArray (rows ++ [row])
    | LandmarksFetched rows' => LmArray rows'
    | RealtimeInsert row => LmAppender row
    | _ => LmArray rows
    end.
Proof.
  intros H.
  destruct e; cbn [Layout.step quiet fst onPanel store panel];
    rewrite ?store_setStore; try exact H; try reflexivity.
  - destruct (Layout.applyFilter runFilter filterType (panel a)). exact H.
  - now rewrite handleSave_state.
  - unfold handleSave_resume. destruct res as [m|row]; [exact H|].
    rewrite (@addLandmark_array row rows (store a) H).
    cbn [fst onPanel store]. rewrite !store_setStore. reflexivity.
Qed.

(** X12.  The editor only ever appends to the collection: along every
    sequence of events without a fetch and without a realtime
    notification, the collection is the array it was, followed by the
    rows of the inserts answered with a stored row, in the order of the
    answers; nothing is dropped, reordered or merged. *)
Theorem collection_append_only (es : list Event) (a : App)
    (rows : list StoredLandmark) :
  landmarks (store a) = LmArray rows ->
  editorOnly es = true ->
  landmarks (store (fst (run es a))) = LmArray (rows ++ savedRows es).
Proof.
  revert a rows. induction es as [|e es IH]; intros a rows Ha Hes.
  - cbn. now rewrite app_nil_r.
  - cbn [editorOnly forallb] in Hes. apply andb_prop in Hes.
    destruct Hes as [He Hes]. rewrite run_cons. cbn [fst].
    pose proof (landmarks_step e a Ha) as Hstep.
    destruct e; try discriminate He;
      try (rewrite (IH _ rows Hstep Hes); reflexivity).
    destruct res as [m|row].
    + rewrite (IH _ rows Hstep Hes). reflexivity.
    + rewrite (IH _ _ Hstep Hes). cbn [savedRows].
      now rewrite <- app_assoc.
Qed.


(** X13.  What a stored row does to the page: when the insert is
    answered with the stored row and the collection is an array, the row
    is appended, the panel is closed with latitude and longitude back at
    0, the name is cleared and the canvas, if the panel was open, is
    disposed, which leaves it without objects; the history and the
    cursor stay as they were, and nothing is alerted. *)
Theorem saved_closes_panel (a : App) (rows : list StoredLandmark)
    (row : StoredLandmark) :
  landmarks (store a) = LmArray rows ->
  let a' := fst (step (SaveAnswered (Saved row)) a) in
  store a' = {| isDrawingPanelOpen := false; currentLat := num 0;
                currentLng := num 0;
                landmarks := LmArray (rows ++ [row]) |}
  /\ name (panel a') = ""
  /\ fabricRef (panel a')
     = (if isDrawingPanelOpen (store a)
        then option_map dispose (fabricRef (panel a))
        else fabricRef (panel a))
  /\ history (panel a') = history (panel a)
  /\ historyIndex (panel a') = historyIndex (panel a)
  /\ option_map objects (fabricRef (panel a'))
     = (if isDrawingPanelOpen (store a)
        then option_map (fun _ => []) (fabricRef (panel a))
        else option_map objects (fabricRef (panel a)))
  /\ snd (step (SaveAnswered (Saved row)) a) = [].
Proof.
  intros H. cbv zeta. cbn [Layout.step]. unfold handleSave_resume.
  rewrite (@addLandmark_array row rows (store a) H).
  rewrite (@setStore_same_flag _ a) by reflexivity.
  unfold setStore, rerender.
  cbn [fst snd onPanel store panel isDrawingPanelOpen setDrawingPanel
         setLandmarks].
  destruct (isDrawingPanelOpen (store a)); cbn;
    repeat split; destruct (fabricRef (panel a)); reflexivity.
Qed.


(** *** After a realtime notification *)

Lemma appender_step (e : Event) (a : App) :
  (exists r, landmarks (store a) = LmAppender r) ->
  match e with LandmarksFetched _ => False | _ => True end ->
  exists r, landmarks (store (fst (step e a))) = LmAppender r.
Proof.
  intros [r H] He.
  destruct e; cbn [Layout.step quiet fst onPanel store panel];
    rewrite ?store_setStore; try (exists r; exact H);
    try contradiction.
  - destruct (Layout.applyFilter runFilter filterType (panel a)).
    exists r; exact H.
  - rewrite handleSave_state. exists r; exact H.
  - unfold handleSave_resume. destruct res as [m|row]; [exists r; exact H|].
    unfold addLandmark. rewrite H. exists r; exact H.
  - eexists. reflexivity.
Qed.

(** X14.  A realtime notification breaks the collection for good: it
    stores a function where the array was, so from then on, along every
    sequence of events without a new fetch, the sprites cannot be
    rendered ([landmarks.map] throws) and every insert answered with a
    stored row is reported as a failed save that changes nothing. *)
Theorem realtime_breaks_collection (row : StoredLandmark)
    (es : list Event) (a : App) :
  noFetch es = true ->
  let a' := fst (run (RealtimeInsert row :: es) a) in
  Scene.Landmarks (store a') = None
  /\ forall row',
       step (SaveAnswered (Saved row')) a' = (a', saveFailed notIterable).
Proof.
  intros Hes. cbv zeta.
  assert (H : exists r, landmarks
                          (store (fst (run (RealtimeInsert row :: es) a)))
                        = LmAppender r).
  { rewrite run_cons. cbn [Layout.step quiet fst].
    assert (H0 : exists r,
               landmarks
                 (store (setStore (setLandmarks (LmAppender row) (store a)) a))
               = LmAppender r).
    { rewrite store_setStore. eexists. reflexivity. }
    revert H0.
    generalize (setStore (setLandmarks (LmAppender row) (store a)) a).
    induction es as [|e es IH]; intros a0 H0; [exact H0|].
    cbn [noFetch forallb] in Hes. apply andb_prop in Hes.
    destruct Hes as [He Hes]. rewrite run_cons. cbn [fst].
    apply (IH Hes). apply appender_step; [exact H0|].
    destruct e; try exact I. discriminate He. }
  destruct H as [r H]. split.
  - unfold Scene.Landmarks. now rewrite H.
  - intros row'. cbn [Layout.step]. unfold handleSave_resume, addLandmark.
    now rewrite H.
Qed.

End Collection.

Lemma collection_append_only_witness :
  landmarks (store drawing) = LmArray []
  /\ editorOnly [Save; SaveAnswered (Saved outpost); Click northPole;
                 SaveAnswered (Saved outpost)] = true
  /\ landmarks
       (store (fst (Layout.run plainFilter plainPNG
                      [Save; SaveAnswered (Saved outpost); Click northPole;
                       SaveAnswered (Saved outpost)] drawing)))
     = LmArray ([] ++ [outpost; outpost]).
Proof.
  split; [reflexivity|]. split; [reflexivity|].
  apply (collection_append_only plainFilter plainPNG
           [Save; SaveAnswered (Saved outpost); Click northPole;
            SaveAnswered (Saved outpost)] drawing (rows := []));
    reflexivity.
Defined.

Lemma saved_closes_panel_witness :
  landmarks (store drawing) = LmArray []
  /\ name (panel (fst (Layout.step plainFilter plainPNG
                         (SaveAnswered (Saved outpost)) drawing))) = "".
Proof.
  split; [reflexivity|].
  apply (saved_closes_panel plainFilter plainPNG drawing (rows := [])
           outpost).
  reflexivity.
Defined.

Lemma realtime_breaks_collection_witness :
  noFetch [Save] = true
  /\ Scene.Landmarks
       (store (fst (Layout.run plainFilter plainPNG
                      [RealtimeInsert outpost; Save] drawing))) = None.
Proof.
  split; [reflexivity|].
  apply (realtime_breaks_collection plainFilter plainPNG outpost [Save]
           drawing).
  reflexivity.
Defined.

(** ** Which names are accepted *)

Section Validation.

Variable runFilter : Filter -> Bitmap -> Bitmap.
Variable toDataURL : Canvas -> string.

Local Abbreviation step := (Layout.step runFilter toDataURL).

Lemma trimStart_white (s : string) :
  allWhiteSpace s = true -> JS.trimStart s = "".
Proof.
  induction s as [|c s IH]; [reflexivity|]. cbn. intros H.
  apply andb_prop in H. destruct H as [Hc Hs]. rewrite Hc. apply IH, Hs.
Qed.

Lemma trimStart_other (s : string) :
  allWhiteSpace s = false ->
  exists c t, JS.trimStart s = String c t /\ JS.isWhiteSpace c = false.
Proof.
  induction s as [|c s IH]; [discriminate|]. cbn. intros H.
  destruct (JS.isWhiteSpace c) eqn:Hc.
  - apply IH. exact H.
  - exists c, s. split; [reflexivity|exact Hc].
Qed.

Lemma trimEnd_other (c : ascii) (t : string) :
  JS.isWhiteSpace c = false -> JS.truthy (JS.trimEnd (String c t)) = true.
Proof.
  intros Hc. cbn. destruct (JS.trimEnd t); [now rewrite Hc|reflexivity].
Qed.

(** A name passes the test of [handleSave] exactly when one of its code
    units is not white space. *)
Lemma truthy_trim (s : string) :
  JS.truthy (JS.trim s) = negb (allWhiteSpace s).
Proof.
  unfold JS.trim. destruct (allWhiteSpace s) eqn:E.
  - now rewrite trimStart_white.
  - destruct (trimStart_other s E) as (c & t & -> & Hc).
    now rewrite trimEnd_other.
Qed.

(** X15.  With a canvas, a save request sends an insert exactly when the
    name has a code unit that is not white space; the insert then carries
    the name as it was typed, white space around it included, and the
    coordinates of the store.  A name of white space only gets the alert
    and no insert. *)
Theorem save_accepts_iff (a : App) (c : Canvas) :
  fabricRef (panel a) = Some c ->
  step Save a
  = if allWhiteSpace (name (panel a))
    then (a, [Alert "Enter a designation"])
    else (a, [Insert {| pl_name := name (panel a);
                        pl_lat := currentLat (store a);
                        pl_lng := currentLng (store a);
                        pl_drawing_data := toDataURL c |}]).
Proof.
  intros Hc. cbn [Layout.step]. unfold handleSave.
  rewrite truthy_trim, Hc, negb_involutive.
  destruct (allWhiteSpace (name (panel a))); reflexivity.
Qed.

End Validation.

Lemma save_accepts_iff_witness :
  fabricRef (panel (onPanel (setName "  Outpost 1 ") drawing))
  = Some newCanvas
  /\ map pl_name
       (inserts (snd (Layout.step plainFilter plainPNG Save
                        (onPanel (setName "  Outpost 1 ") drawing))))
     = ["  Outpost 1 "].
Proof.
  split; [reflexivity|].
  rewrite (save_accepts_iff plainFilter plainPNG
             (onPanel (setName "  Outpost 1 ") drawing) (c := newCanvas));
    reflexivity.
Defined.

(** ** What a filter action touches *)

Section FilterFrame.

Variable runFilter : Filter -> Bitmap -> Bitmap.

Local Abbreviation applyFilter := (Layout.applyFilter runFilter).
Local Abbreviation applyFilters := (Layout.applyFilters runFilter).

Lemma length_replaceAt (A : Type) (l : list A) (i : nat) (x : A) :
  List.length (replaceAt i x l) = List.length l.
Proof.
  revert i. induction l as [|h t IH]; intros [|i]; cbn; auto.
Qed.

Lemma nth_error_replaceAt_other (A : Type) (l : list A) (i j : nat) (x : A) :
  i <> j -> nth_error (replaceAt i x l) j = nth_error l j.
Proof.
  revert i j. induction l as [|h t IH]; intros [|i] [|j] H; cbn; auto.
  contradiction.
Qed.

(** X16.  A filter action is no committed change: it leaves the history,
    the cursor, the name and the selection as they are, and on the
    canvas it touches no object but the selected one; the number of
    objects and their order stay. *)
Theorem applyFilter_frame (filterType : string) (p : Panel) :
  let p' := fst (applyFilter filterType p) in
  history p' = history p
  /\ historyIndex p' = historyIndex p
  /\ name p' = name p
  /\ option_map activeObject (fabricRef p')
     = option_map activeObject (fabricRef p)
  /\ option_map (fun c => List.length (objects c)) (fabricRef p')
     = option_map (fun c => List.length (objects c)) (fabricRef p)
  /\ forall c c' j,
       fabricRef p = Some c -> fabricRef p' = Some c' ->
       activeObject c <> Some j ->
       nth_error (objects c') j = nth_error (objects c) j.
Proof.
  cbv zeta.
  destruct (fabricRef p) as [c|] eqn:Hc.
  2:{ unfold Layout.applyFilter. rewrite Hc. cbn. rewrite Hc.
      repeat split. intros; discriminate. }
  destruct (getActiveObject c) as [[i o]|] eqn:Ha.
  2:{ unfold Layout.applyFilter. rewrite Hc, Ha. cbn. rewrite Hc.
      repeat split. intros c0 c' j H0 H1 _. congruence. }
  rewrite (@applyFilter_selected runFilter filterType p c i o Hc Ha).
  assert (Hi : activeObject c = Some i).
  { unfold getActiveObject in Ha. destruct (activeObject c) as [k|];
      [|discriminate].
    destruct (nth_error (objects c) k); [|discriminate]. congruence. }
  destruct (applyFilters (set_filters (Some (chosen filterType)) o));
    cbn; rewrite ?length_replaceAt; repeat split;
    intros c0 c' j H0 H1 Hj; injection H0 as <-; injection H1 as <-; cbn;
    apply nth_error_replaceAt_other; congruence.
Qed.

(** X17.  On a selected image a filter action starts from the original
    element: the element becomes the original with the one filter of the
    action run on it, the filters become that one filter, and a filter
    type the switch does not know leaves no filter and brings the
    original pixels back. *)
Theorem applyFilter_image (filterType : string) (p : Panel) (c : Canvas)
    (i : nat) (o : FabricObject) (original element : Bitmap) (sx sy : Q) :
  fabricRef p = Some c ->
  getActiveObject c = Some (i, o) ->
  body o = Image original element sx sy ->
  exists c' o',
    applyFilter filterType p = (set_fabricRef (Some c') p, [])
    /\ nth_error (objects c') i = Some o'
    /\ filters o' = Some (chosen filterType)
    /\ body o'
       = Image original
           (fold_left (fun b f => runFilter f b) (chosen filterType) original)
           sx sy
    /\ (chosen filterType = [] -> body o' = Image original original sx sy)
    /\ (left o', top o', fill o', stroke o', strokeWidth o')
       = (left o, top o, fill o, stroke o, strokeWidth o).
Proof.
  intros Hc Ha Hb.
  rewrite (@applyFilter_selected runFilter filterType p c i o Hc Ha).
  unfold Layout.applyFilters. cbn [body set_filters]. rewrite Hb.
  do 2 eexists. split; [reflexivity|]. split.
  - cbn [objects set_objects]. unfold getActiveObject in Ha.
    destruct (activeObject c) as [k|]; [|discriminate].
    destruct (nth_error (objects c) k) as [x|] eqn:E; [|discriminate].
    injection Ha as -> ->. apply (@nth_error_replaceAt _ _ _ _ _ E).
  - cbn. repeat split. intros ->. reflexivity.
Qed.

(** X18.  On a selected object that is no image the filter action fails
    half way: the filters of the object have been overwritten when the
    call of [applyFilters] throws, and the exception is caught by
    nobody. *)
Theorem applyFilter_not_image (filterType : string) (p : Panel) (c : Canvas)
    (i : nat) (o : FabricObject) :
  fabricRef p = Some c ->
  getActiveObject c = Some (i, o) ->
  (forall original element sx sy, body o <> Image original element sx sy) ->
  exists c',
    applyFilter filterType p
    = (set_fabricRef (Some c') p,
       [Uncaught "activeObject.applyFilters is not a function"])
    /\ nth_error (objects c') i
       = Some (set_filters (Some (chosen filterType)) o).
Proof.
  intros Hc Ha Hb.
  rewrite (@applyFilter_selected runFilter filterType p c i o Hc Ha).
  unfold Layout.applyFilters. cbn [body set_filters].
  destruct (body o) eqn:E;
    try (eexists; split; [reflexivity|];
         cbn [objects set_objects]; unfold getActiveObject in Ha;
         destruct (activeObject c) as [k|]; [|discriminate];
         destruct (nth_error (objects c) k) as [x|] eqn:E'; [|discriminate];
         injection Ha as -> ->; apply (@nth_error_replaceAt _ _ _ _ _ E')).
  exfalso. eapply Hb. reflexivity.
Qed.

End FilterFrame.

(** ** The older panel against the page *)

Section Older.

Variable toDataURL : Canvas -> string.

(** X19.  Up to the [await] the two variants save alike: from states with
    the same store, name and canvas, the save request of the older panel
    emits what the one of the page emits (the same alert, or the same
    insert), and both leave their state as it is. *)
Theorem handleSave_agree (a : App) (a2 : Panel002.App) :
  Panel002.store a2 = store a ->
  Panel002.name (Panel002.panel a2) = name (panel a) ->
  Panel002.fabricCanvasRef (Panel002.panel a2) = fabricRef (panel a) ->
  snd (Panel002.handleSave toDataURL a2) = snd (handleSave toDataURL a)
  /\ fst (Panel002.handleSave toDataURL a2) = a2
  /\ fst (handleSave toDataURL a) = a.
Proof.
  intros Hs Hn Hc. unfold Panel002.handleSave, handleSave.
  rewrite Hs, Hn, Hc.
  destruct (negb (JS.truthy (JS.trim (name (panel a))))); [repeat split|].
  destruct (fabricRef (panel a)); repeat split.
Qed.

Lemma p2_run_cons (e : Panel002.Event) (es : list Panel002.Event)
    (a : Panel002.App) :
  Panel002.run toDataURL (e :: es) a
  = (fst (Panel002.run toDataURL es (fst (Panel002.step toDataURL e a))),
     (snd (Panel002.step toDataURL e a)
      ++ snd (Panel002.run toDataURL es
                (fst (Panel002.step toDataURL e a))))%list).
Proof.
  cbn [Panel002.run].
  destruct (Panel002.step toDataURL e a) as [a1 out1]. cbn [fst snd].
  destruct (Panel002.run toDataURL es a1) as [a2 out2]. reflexivity.
Qed.

Lemma p2_store_rerender (b : bool) (a : Panel002.App) :
  Panel002.store (Panel002.rerender b a) = Panel002.store a.
Proof.
  unfold Panel002.rerender.
  destruct b, (isDrawingPanelOpen (Panel002.store a)); reflexivity.
Qed.

Lemma p2_store_setStore (s : Store) (a : Panel002.App) :
  Panel002.store (Panel002.setStore s a) = s.
Proof. unfold Panel002.setStore. now rewrite p2_store_rerender. Qed.

Lemma p2_landmarks_step (e : Panel002.Event) (a : Panel002.App)
    (rows : list StoredLandmark) :
  landmarks (Panel002.store a) = LmArray rows ->
  landmarks (Panel002.store (fst (Panel002.step toDataURL e a)))
  = LmArray (collect002 rows e).
Proof.
  intros H.
  destruct e; cbn [Panel002.step Panel002.quiet fst Panel002.onPanel
                     Panel002.store Panel002.handleUndo Panel002.handleRedo
                     collect002];
    rewrite ?p2_store_setStore; try exact H; try reflexivity.
  - unfold Panel002.handleSave.
    destruct (negb _); [exact H|].
    destruct (Panel002.fabricCanvasRef _); exact H.
  - unfold Panel002.handleSave_resume.
    destruct res as [m|row]; [exact H|].
    rewrite (@addLandmark_array row rows (Panel002.store a) H).
    cbn [fst]. rewrite p2_store_rerender. reflexivity.
Qed.

(** X20.  In the older variant the collection is an array after every
    sequence of its events: the rows of the last fetch (none before the
    first) followed by the rows of the inserts answered since with a
    stored row.  No handler there stores anything else, so the spread in
    [addLandmark] never throws. *)
Theorem older_collection_is_array (es : list Panel002.Event) :
  let a := fst (Panel002.run toDataURL es Panel002.initialApp) in
  landmarks (Panel002.store a) = LmArray (fold_left collect002 es [])
  /\ forall row, addLandmark row (Panel002.store a) <> None.
Proof.
  cbv zeta.
  assert (H : forall a rows,
             landmarks (Panel002.store a) = LmArray rows ->
             landmarks (Panel002.store (fst (Panel002.run toDataURL es a)))
             = LmArray (fold_left collect002 es rows)).
  { induction es as [|e es IH]; intros a rows Ha; [exact Ha|].
    rewrite p2_run_cons. cbn [fst fold_left].
    apply IH, p2_landmarks_step, Ha. }
  pose proof (H Panel002.initialApp [] eq_refl) as H0.
  split; [exact H0|].
  intros row. unfold addLandmark. rewrite H0. discriminate.
Qed.

(** X21.  In the older variant a stored row also empties the canvas: when
    the insert is answered with the stored row, the row is appended, the
    panel is closed, the name is cleared, and the canvas, if there is
    one, is left without objects on the background colour. *)
Theorem older_saved_clears (a : Panel002.App) (rows : list StoredLandmark)
    (row : StoredLandmark) :
  landmarks (Panel002.store a) = LmArray rows ->
  let a' :=
    fst (Panel002.step toDataURL (Panel002.SaveAnswered (Saved row)) a) in
  Panel002.store a'
  = {| isDrawingPanelOpen := false; currentLat := num 0;
       currentLng := num 0; landmarks := LmArray (rows ++ [row]) |}
  /\ Panel002.name (Panel002.panel a') = ""
  /\ option_map objects (Panel002.fabricCanvasRef (Panel002.panel a'))
     = option_map (fun _ => []) (Panel002.fabricCanvasRef (Panel002.panel a))
  /\ option_map backgroundColor
       (Panel002.fabricCanvasRef (Panel002.panel a'))
     = option_map (fun _ => "#1a1a1a")
         (Panel002.fabricCanvasRef (Panel002.panel a)).
Proof.
  intros H. cbv zeta. cbn [Panel002.step].
  unfold Panel002.handleSave_resume.
  rewrite (@addLandmark_array row rows _ H). cbn [fst].
  rewrite p2_store_rerender. split; [reflexivity|].
  destruct a as [s [c col bs er nm]]. cbn in H |- *.
  destruct c, (isDrawingPanelOpen s); repeat split.
Qed.

End Older.

Lemma handleSave_agree_witness :
  Panel002.store drawing002 = store drawing
  /\ Panel002.name (Panel002.panel drawing002) = name (panel drawing)
  /\ Panel002.fabricCanvasRef (Panel002.panel drawing002)
     = fabricRef (panel drawing)
  /\ snd (Panel002.handleSave plainPNG drawing002)
     = snd (handleSave plainPNG drawing).
Proof.
  split; [reflexivity|]. split; [reflexivity|]. split; [reflexivity|].
  apply (handleSave_agree plainPNG drawing drawing002); reflexivity.
Defined.

Lemma older_saved_clears_witness :
  landmarks (Panel002.store drawing002) = LmArray []
  /\ Panel002.name
       (Panel002.panel
          (fst (Panel002.step plainPNG (Panel002.SaveAnswered (Saved outpost))
                  (Panel002.onPanel Panel002.handleAddRect drawing002))))
     = "".
Proof.
  split; [reflexivity|].
  apply (older_saved_clears plainPNG
           (Panel002.onPanel Panel002.handleAddRect drawing002)
           (rows := []) outpost).
  reflexivity.
Defined.

(** ** The API route *)

Section ApiRoute.

Import Api.

Variable db : Db.

Lemma body_eta (b : Body) :
  {| Api.name := Api.name b; lat := lat b; lng := lng b;
     drawing_data := drawing_data b |} = b.
Proof. destruct b; reflexivity. Qed.

(** X22.  A method other than GET and POST is answered 405 with the
    header Allow: GET, POST and the text "Method <m> Not Allowed"; the
    table is not touched. *)
Theorem other_method_not_allowed (req : Request) :
  method req <> "GET" -> method req <> "POST" ->
  handler db req
  = ({| status := 405;
        headers := [("Allow", ["GET"; "POST"])];
        resBody := Text ("Method " ++ method req ++ " Not Allowed") |}, []).
Proof.
  intros Hg Hp. unfold handler.
  destruct (String.eqb_spec (method req) "GET"); [contradiction|].
  destruct (String.eqb_spec (method req) "POST"); [contradiction|].
  reflexivity.
Qed.


(** X24.  Every other POST is inserted as it came: a truthy name and
    drawing data and a latitude and longitude that are not absent (0,
    null and a name of white space only pass) make exactly one insert of
    the four fields, unchanged; the answer is 201 with the first row the
    table returns, or 500 with the message of its error. *)
Theorem post_inserted (req : Request) :
  method req = "POST" ->
  truthy (Api.name (body req)) = true ->
  lat (body req) <> Undefined ->
  lng (body req) <> Undefined ->
  truthy (drawing_data (body req)) = true ->
  handler db req
  = match insertRow db (body req) with
    | Error message =>
        (json 500 (JsonError message), [InsertRow (body req)])
    | Data data =>
        (json 201 (JsonRow (nth_error data 0)), [InsertRow (body req)])
    end.
Proof.
  intros Hm Hn Hlat Hlng Hd. unfold handler. rewrite Hm.
  cbn [String.eqb Ascii.eqb Bool.eqb]. rewrite Hn, Hd, body_eta.
  destruct (lat (body req)); try contradiction;
    destruct (lng (body req)); try contradiction; reflexivity.
Qed.

(** X25.  The route writes on a complete POST only: whenever the handler
    inserts a row, the method is POST, the row is the body of the
    request, and its four fields pass the test; and the handler never
    makes more than one call. *)
Theorem inserts_only_complete_post (req : Request) (row : Body) :
  In (InsertRow row) (snd (handler db req)) ->
  method req = "POST"
  /\ row = body req
  /\ truthy (Api.name row) = true
  /\ lat row <> Undefined
  /\ lng row <> Undefined
  /\ truthy (drawing_data row) = true
  /\ (List.length (snd (handler db req)) <= 1)%nat.
Proof.
  unfold handler. cbv zeta. rewrite body_eta.
  destruct (String.eqb_spec (method req) "GET") as [Hg|Hg].
  { destruct (selectAll db); cbn; intros [H|[]]; discriminate. }
  destruct (String.eqb_spec (method req) "POST") as [Hp|Hp];
    [|cbn; intros []].
  destruct (truthy (Api.name (body req))) eqn:Hn; [|cbn; intros []].
  destruct (truthy (drawing_data (body req))) eqn:Hd.
  2:{ rewrite orb_true_r. cbn. intros []. }
  destruct (lat (body req)) eqn:Hlat; try (cbn; intros []; fail);
    destruct (lng (body req)) eqn:Hlng; try (cbn; intros []; fail);
    cbn [negb orb isUndefined];
    (destruct (insertRow db (body req)); cbn; intros [H|[]];
     injection H as <-; rewrite Hn, Hlat, Hlng, Hd;
     repeat split; try discriminate; try exact Hp; apply Nat.le_refl).
Qed.

End ApiRoute.

Lemma other_method_not_allowed_witness :
  Api.method deleteRequest <> "GET" /\ Api.method deleteRequest <> "POST"
  /\ Api.status (fst (Api.handler sampleDb deleteRequest)) = 405%Z.
Proof.
  split; [discriminate|]. split; [discriminate|].
  rewrite (other_method_not_allowed sampleDb deleteRequest);
    [reflexivity | discriminate | discriminate].
Defined.


Lemma post_inserted_witness :
  Api.method blankNamePost = "POST"
  /\ Api.truthy (Api.name (Api.body blankNamePost)) = true
  /\ Api.lat (Api.body blankNamePost) <> Api.Undefined
  /\ Api.lng (Api.body blankNamePost) <> Api.Undefined
  /\ Api.truthy (Api.drawing_data (Api.body blankNamePost)) = true
  /\ Api.handler sampleDb blankNamePost
     = (Api.json 201 (Api.JsonRow (Some outpost)),
        [Api.InsertRow (Api.body blankNamePost)]).
Proof.
  split; [reflexivity|]. split; [reflexivity|].
  split; [discriminate|]. split; [discriminate|]. split; [reflexivity|].
  rewrite (post_inserted sampleDb blankNamePost);
    [reflexivity | reflexivity | reflexivity | discriminate | discriminate
     | reflexivity].
Defined.

Lemma inserts_only_complete_post_witness :
  In (Api.InsertRow (Api.body blankNamePost))
     (snd (Api.handler sampleDb blankNamePost))
  /\ Api.method blankNamePost = "POST".
Proof.
  assert (H : In (Api.InsertRow (Api.body blankNamePost))
                 (snd (Api.handler sampleDb blankNamePost)))
    by (left; reflexivity).
  split; [exact H|].
  apply (inserts_only_complete_post sampleDb blankNamePost
           (Api.body blankNamePost) H).
Defined.

(** ** Witnesses for the filter actions *)

Lemma applyFilter_image_witness :
  fabricRef withImage <> None
  /\ exists c' o',
       Layout.applyFilter plainFilter "sepia" withImage
       = (set_fabricRef (Some c') withImage, [])
       /\ nth_error (objects c') 0 = Some o'
       /\ filters o' = Some (chosen "sepia")
       /\ body o'
          = Image samplePixels
              (fold_left (fun b f => plainFilter f b) (chosen "sepia")
                 samplePixels)
              (1 # 2) (1 # 2)
       /\ (chosen "sepia" = [] ->
           body o' = Image samplePixels samplePixels (1 # 2) (1 # 2))
       /\ (left o', top o', fill o', stroke o', strokeWidth o')
          = (100%Z, 100%Z, ColorFill "rgb(0,0,0)", None, 0%Z).
Proof.
  split; [discriminate|].
  refine (applyFilter_image plainFilter "sepia" withImage
            (c := canvasOf withImage) (i := 0) (o := importedImage)
            (original := samplePixels) (element := samplePixels)
            (sx := 1 # 2) (sy := 1 # 2) _ _ _);
    reflexivity.
Defined.

Lemma applyFilter_not_image_witness :
  fabricRef withRect <> None
  /\ exists c',
       Layout.applyFilter plainFilter "blur" withRect
       = (set_fabricRef (Some c') withRect,
          [Uncaught "activeObject.applyFilters is not a function"])
       /\ nth_error (objects c') 0
          = Some {| body := Rect 80 60; left := 100; top := 100;
                    fill := Transparent; stroke := Some "#00ffc3";
                    strokeWidth := 3;
                    filters := Some [Blur (1 # 2)] |}.
Proof.
  split; [discriminate|].
  refine (applyFilter_not_image plainFilter "blur" withRect
            (c := canvasOf withRect) (i := 0) (o := rectangle) _ _ _);
    [reflexivity | reflexivity | intros; discriminate].
Defined.
